(** * regex-le: the sample fixture [sample/app.py]

    The repository holds one Python file, a fixture for a regex based
    scanner.  This development embeds it twice:

    - [Text]: the file as its 69 lines, with the lexical scanners that
      find definitions at column 0, identifiers and quoted literals;
    - [Ast]: the file as a Python syntax tree, with the functions that
      list definitions, literals and name references, and an
      interpreter of name binding for module and function bodies.

    [Runtime] is the shallow embedding of the code that computes:
    [calculate_total], [UserManager.__init__] and [UserManager.get_name],
    over objects represented by their attribute dictionaries. *)

From Stdlib Require Import ZArith Ascii String List Bool Lia.
From stdpp Require Import base decidable option list strings gmap.
Import ListNotations.

Open Scope string_scope.
Open Scope list_scope.

Set Warnings "-register-all,-clear-no-such-hyp".

(* ===================================================================== *)
(** ** The file as text *)
(* ===================================================================== *)

Module Text.

(** The double quote character, and the triple quote that delimits
    docstrings. *)
Definition dq : string := String (ascii_of_nat 34) EmptyString.
Definition dq3 : string := dq +:+ dq +:+ dq.

(** [sample/app.py], line by line (line [n] of the file is element
    [n - 1] of the list). *)
Definition source : list string :=
  [ "# Sample Python file for Regex-LE testing"
  ; "# Test patterns: /def\s+(\w+)/g, /class\s+(\w+)/g, /['" +:+ dq +:+ "]([^'" +:+ dq +:+ "`]+)['" +:+ dq +:+ "`]/g"
  ; ""
  ; "import os"
  ; "import json"
  ; "from typing import List, Dict, Optional"
  ; "from datetime import datetime"
  ; ""
  ; "# Function definitions"
  ; "def calculate_total(items):"
  ; "    " +:+ dq3 +:+ "Calculate total price of items." +:+ dq3
  ; "    return sum(item.price for item in items)"
  ; ""
  ; "def process_user_data(user_id: int) -> Dict:"
  ; "    " +:+ dq3 +:+ "Process user data from API." +:+ dq3
  ; "    response = requests.get(f'/api/users/{user_id}')"
  ; "    return response.json()"
  ; ""
  ; "async def fetch_data(url: str) -> Optional[str]:"
  ; "    " +:+ dq3 +:+ "Async function to fetch data." +:+ dq3
  ; "    async with aiohttp.ClientSession() as session:"
  ; "        async with session.get(url) as response:"
  ; "            return await response.text()"
  ; ""
  ; "# Class definitions"
  ; "class UserManager:"
  ; "    " +:+ dq3 +:+ "Manages user operations." +:+ dq3
  ; "    "
  ; "    def __init__(self, name: str, email: str):"
  ; "        self.name = name"
  ; "        self.email = email"
  ; "        self.created_at = datetime.now()"
  ; "    "
  ; "    def get_name(self) -> str:"
  ; "        " +:+ dq3 +:+ "Get user name." +:+ dq3
  ; "        return self.name"
  ; ""
  ; "class DatabaseConnection:"
  ; "    " +:+ dq3 +:+ "Handles database connections." +:+ dq3
  ; "    "
  ; "    def connect(self):"
  ; "        " +:+ dq3 +:+ "Connect to database." +:+ dq3
  ; "        pass"
  ; ""
  ; "# String values"
  ; "welcome_message = 'Welcome to the application'"
  ; "api_url = " +:+ dq +:+ "https://api.example.com/v1" +:+ dq
  ; "template = f" +:+ dq +:+ "Hello, {name}!" +:+ dq
  ; ""
  ; "# Numbers"
  ; "MAX_USERS = 1000"
  ; "api_version = '2.0.1'"
  ; "user_ids = [101, 102, 103, 204, 305]"
  ; ""
  ; "# Regex patterns"
  ; "email_pattern = r'\b[A-Za-z0-9._%+-]+@[A-Za-z0-9.-]+\.[A-Z|a-z]{2,}\b'"
  ; "phone_pattern = r'^\+?[\d\s\-\(\)]+$'"
  ; ""
  ; "# Configuration"
  ; "config = {"
  ; "    'static_path': './static',"
  ; "    'asset_path': '/assets/images',"
  ; "    'data_path': '../data/records.json'"
  ; "}"
  ; ""
  ; "# Comments"
  ; "# TODO: Refactor authentication"
  ; "# FIXME: Handle edge case"
  ; "# NOTE: Needs optimization"
  ].

(** Lines paired with their 1-based line numbers. *)
Definition numbered (ls : list string) : list (nat * string) :=
  combine (seq 1 (length ls)) ls.

(** *** Character classes *)

Definition is_space (c : ascii) : bool :=
  let n := nat_of_ascii c in
  (n =? 32)%nat || (n =? 9)%nat.

(** [\w]: letters, digits and the underscore. *)
Definition is_word (c : ascii) : bool :=
  let n := nat_of_ascii c in
  ((97 <=? n) && (n <=? 122) || (65 <=? n) && (n <=? 90)
   || (48 <=? n) && (n <=? 57) || (n =? 95))%nat.

Fixpoint skip_spaces (s : string) : string :=
  match s with
  | String c r => if is_space c then skip_spaces r else s
  | EmptyString => s
  end.

Fixpoint take_word (s : string) : string :=
  match s with
  | String c r => if is_word c then String c (take_word r) else EmptyString
  | EmptyString => EmptyString
  end.

Fixpoint drop_word (s : string) : string :=
  match s with
  | String c r => if is_word c then drop_word r else s
  | EmptyString => s
  end.

(** [strip_prefix p s] is the rest of [s] after its prefix [p]. *)
Fixpoint strip_prefix (p s : string) : option string :=
  match p, s with
  | EmptyString, _ => Some s
  | String a p', String b s' =>
      if Ascii.eqb a b then strip_prefix p' s' else None
  | String _ _, EmptyString => None
  end.

(** *** Definitions found by keyword *)

(** The keyword [kw], at least one blank, and then what follows. *)
Definition after_keyword (kw s : string) : option string :=
  match strip_prefix kw s with
  | Some (String c r) =>
      if is_space c then Some (skip_spaces r) else None
  | _ => None
  end.

(** The keyword [kw], blanks, and a name: the name. *)
Definition keyword_name (kw s : string) : option string :=
  match after_keyword kw s with
  | Some r =>
      match take_word r with
      | EmptyString => None
      | w => Some w
      end
  | None => None
  end.

(** A line that opens a function: [def name] or [async def name]. *)
Definition def_name (s : string) : option string :=
  match keyword_name "def" s with
  | Some w => Some w
  | None =>
      match after_keyword "async" s with
      | Some r => keyword_name "def" r
      | None => None
      end
  end.

Definition class_name (s : string) : option string :=
  keyword_name "class" s.

(** Definitions whose keyword stands at column 0: the top level ones. *)
Definition toplevel_defs (ls : list string) : list string :=
  omap def_name ls.

Definition toplevel_classes (ls : list string) : list string :=
  omap class_name ls.

(** Definitions at any indentation, with that indentation. *)
Definition indent (s : string) : nat :=
  String.length s - String.length (skip_spaces s).

Definition all_defs (ls : list string) : list (nat * string) :=
  omap (fun l => (fun w => (indent l, w)) <$> def_name (skip_spaces l)) ls.

(** *** Identifiers *)

(** The words of a line: its maximal runs of word characters. *)
Fixpoint words_fuel (fuel : nat) (s : string) : list string :=
  match fuel with
  | O => []
  | S fuel' =>
      match s with
      | EmptyString => []
      | String c r =>
          if is_word c then take_word s :: words_fuel fuel' (drop_word s)
          else words_fuel fuel' r
      end
  end.

Definition words (s : string) : list string :=
  words_fuel (String.length s) s.

(** The numbers of the lines on which the word [w] stands. *)
Definition lines_with_word (w : string) (ls : list string) : list nat :=
  omap (fun '(n, l) => if bool_decide (w ∈ words l) then Some n else None)
       (numbered ls).

(** *** Quoted literals

    A scanner over the characters of the file, after Python's lexical
    rules: [#] opens a comment up to the end of the line, a quote opens
    a literal closed by the same quote, three quotes open a literal
    closed by three, and a backslash inside a literal takes the next
    character with it.  The literal is the text between the quotes (a
    prefix letter such as [f] or [r] is left in the code before it). *)

Definition newline : ascii := ascii_of_nat 10.
Definition backslash : ascii := ascii_of_nat 92.
Definition hash : ascii := ascii_of_nat 35.

Definition is_quote (c : ascii) : bool :=
  let n := nat_of_ascii c in
  (n =? 34)%nat || (n =? 39)%nat.

Inductive lex_state :=
| Code
| Comment
| Open1 (q : ascii)
| Open2 (q : ascii)
| InStr (q : ascii) (acc : list ascii)
| InStrEsc (q : ascii) (acc : list ascii)
| InTriple (q : ascii) (closing : nat) (acc : list ascii)
| InTripleEsc (q : ascii) (acc : list ascii)
| Unterminated.

(** The accumulators hold the body backwards. *)
Definition emit (acc : list ascii) : string :=
  string_of_list_ascii (rev acc).

Definition step_code (c : ascii) : lex_state :=
  if is_quote c then Open1 c
  else if Ascii.eqb c hash then Comment
  else Code.

(** One character: the next state and the literals that it closes. *)
Definition step (st : lex_state) (c : ascii) : lex_state * list string :=
  match st with
  | Code => (step_code c, [])
  | Comment => (if Ascii.eqb c newline then Code else Comment, [])
  | Open1 q =>
      if Ascii.eqb c q then (Open2 q, [])
      else if Ascii.eqb c backslash then (InStrEsc q [c], [])
      else if Ascii.eqb c newline then (Unterminated, [])
      else (InStr q [c], [])
  | Open2 q =>
      if Ascii.eqb c q then (InTriple q 0 [], [])
      else (step_code c, [EmptyString])
  | InStr q acc =>
      if Ascii.eqb c q then (Code, [emit acc])
      else if Ascii.eqb c backslash then (InStrEsc q (c :: acc), [])
      else if Ascii.eqb c newline then (Unterminated, [])
      else (InStr q (c :: acc), [])
  | InStrEsc q acc => (InStr q (c :: acc), [])
  | InTriple q closing acc =>
      if Ascii.eqb c q then
        match closing with
        | 2%nat => (Code, [emit acc])
        | _ => (InTriple q (S closing) acc, [])
        end
      else
        let acc' := repeat q closing ++ acc in
        if Ascii.eqb c backslash then (InTripleEsc q (c :: acc'), [])
        else (InTriple q 0 (c :: acc'), [])
  | InTripleEsc q acc => (InTriple q 0 (c :: acc), [])
  | Unterminated => (Unterminated, [])
  end.

Fixpoint scan (st : lex_state) (cs : list ascii) : lex_state * list string :=
  match cs with
  | [] => (st, [])
  | c :: cs' =>
      let '(st1, out1) := step st c in
      let '(st2, out2) := scan st1 cs' in
      (st2, out1 ++ out2)
  end.

(** The characters of the file: every line and its line end. *)
Definition chars (ls : list string) : list ascii :=
  concat (map (fun l => list_ascii_of_string l ++ [newline]) ls).

Definition string_literals (ls : list string) : list string :=
  snd (scan Code (chars ls)).

Definition final_state (ls : list string) : lex_state :=
  fst (scan Code (chars ls)).

End Text.

(* ===================================================================== *)
(** ** The test patterns of the header *)
(* ===================================================================== *)

(** Line 2 of the file names the three patterns that the file is there
    to be matched with, each with the flag [g]: all the matches in the
    text, from left to right, the search going on where a match has
    ended.  The three are sequences of a fixed string, runs of one
    character class and single characters of a class; a run is the
    longest there is, and no shorter run can save a match that the
    longest run does not give. *)
Module Patterns.

(** [\s], for the characters of the file: blank, tab and the line ends. *)
Definition is_space (c : ascii) : bool :=
  let n := nat_of_ascii c in
  ((9 <=? n) && (n <=? 13) || (n =? 32))%nat.

(** The single and the double quote, and these two with the
    backquote. *)
Definition is_opening (c : ascii) : bool :=
  let n := nat_of_ascii c in
  ((n =? 39) || (n =? 34))%nat.

Definition is_closing (c : ascii) : bool :=
  let n := nat_of_ascii c in
  ((n =? 39) || (n =? 34) || (n =? 96))%nat.

(** The longest run of characters of a class, and what follows it. *)
Fixpoint span (p : ascii -> bool) (cs : list ascii)
  : list ascii * list ascii :=
  match cs with
  | c :: r =>
      if p c then let '(run, rest) := span p r in (c :: run, rest)
      else ([], cs)
  | [] => ([], [])
  end.

Fixpoint strip (p cs : list ascii) : option (list ascii) :=
  match p, cs with
  | [], _ => Some cs
  | a :: p', b :: cs' => if Ascii.eqb a b then strip p' cs' else None
  | _ :: _, [] => None
  end.

(** [kw\s+(\w+)] at the start of [cs]: the group and the text after
    the match. *)
Definition keyword_at (kw : string) (cs : list ascii)
  : option (string * list ascii) :=
  match strip (list_ascii_of_string kw) cs with
  | Some r =>
      match span is_space r with
      | ([], _) => None
      | (_, r') =>
          match span Text.is_word r' with
          | ([], _) => None
          | (w, r'') => Some (string_of_list_ascii w, r'')
          end
      end
  | None => None
  end.

(** [/def\s+(\w+)/] and [/class\s+(\w+)/]. *)
Definition def_at : list ascii -> option (string * list ascii) :=
  keyword_at "def".

Definition class_at : list ascii -> option (string * list ascii) :=
  keyword_at "class".

(** The third pattern: a single or a double quote, the longest run
    of characters that are none of the three quotes, not empty, and one
    of the three quotes. *)
Definition quoted_at (cs : list ascii) : option (string * list ascii) :=
  match cs with
  | c :: r =>
      if is_opening c then
        match span (fun x => negb (is_closing x)) r with
        | ([], _) => None
        | (w, _ :: r') => Some (string_of_list_ascii w, r')
        | (_, []) => None
        end
      else None
  | [] => None
  end.

(** The flag [g]: the groups of all the matches. *)
Fixpoint match_all (at_start : list ascii -> option (string * list ascii))
    (fuel : nat) (cs : list ascii) : list string :=
  match fuel with
  | O => []
  | S fuel' =>
      match at_start cs with
      | Some (w, r) => w :: match_all at_start fuel' r
      | None =>
          match cs with
          | [] => []
          | _ :: r => match_all at_start fuel' r
          end
      end
  end.

Definition captures (at_start : list ascii -> option (string * list ascii))
    (cs : list ascii) : list string :=
  match_all at_start (length cs) cs.

(** A pattern over the whole text of the file, and over each line by
    itself. *)
Definition in_text (at_start : list ascii -> option (string * list ascii))
    (ls : list string) : list string :=
  captures at_start (Text.chars ls).

Definition in_lines (at_start : list ascii -> option (string * list ascii))
    (ls : list string) : list string :=
  concat (map (fun l => captures at_start (list_ascii_of_string l)) ls).

(** A match that is found leaves less text than there was. *)
Definition shortens (at_start : list ascii -> option (string * list ascii))
  : Prop :=
  forall cs w r, at_start cs = Some (w, r) -> length r < length cs.

End Patterns.

(* ===================================================================== *)
(** ** The file as a syntax tree *)
(* ===================================================================== *)

Module Ast.

(** Expressions and statements, with the node names of Python's [ast]
    module, for the constructs that the file uses. *)
Inductive expr :=
| Name (id : string)
| Str (s : string)
| Num (n : Z)
| JoinedStr (values : list expr)
| FormattedValue (value : expr)
| Attribute (value : expr) (attr : string)
| Call (func : expr) (args : list expr)
| Subscript (value : expr) (slice : expr)
| GeneratorExp (elt : expr) (target : string) (iter : expr)
| Await (value : expr)
| ListE (elts : list expr)
| DictE (items : list (expr * expr)).

Record arg := Arg { arg_name : string; annotation : option expr }.

Inductive stmt :=
| Import (names : list string)
| ImportFrom (module : string) (names : list string)
| FunctionDef (name : string) (args : list arg) (returns : option expr)
    (body : list stmt)
| AsyncFunctionDef (name : string) (args : list arg)
    (returns : option expr) (body : list stmt)
| ClassDef (name : string) (bases : list expr) (body : list stmt)
| Return (value : option expr)
| Assign (target : expr) (value : expr)
| Expr (value : expr)
| Pass
| AsyncWith (context_expr : expr) (optional_vars : option string)
    (body : list stmt).

(** *** The declarations of [sample/app.py] *)

(** Lines 10 to 12. *)
Definition calculate_total : stmt :=
  FunctionDef "calculate_total" [Arg "items" None] None
    [ Expr (Str "Calculate total price of items.")
    ; Return (Some (Call (Name "sum")
        [GeneratorExp (Attribute (Name "item") "price") "item"
           (Name "items")])) ].

(** Lines 14 to 17. *)
Definition process_user_data : stmt :=
  FunctionDef "process_user_data" [Arg "user_id" (Some (Name "int"))]
    (Some (Name "Dict"))
    [ Expr (Str "Process user data from API.")
    ; Assign (Name "response")
        (Call (Attribute (Name "requests") "get")
           [JoinedStr [Str "/api/users/"; FormattedValue (Name "user_id")]])
    ; Return (Some (Call (Attribute (Name "response") "json") [])) ].

(** Lines 19 to 23. *)
Definition fetch_data : stmt :=
  AsyncFunctionDef "fetch_data" [Arg "url" (Some (Name "str"))]
    (Some (Subscript (Name "Optional") (Name "str")))
    [ Expr (Str "Async function to fetch data.")
    ; AsyncWith (Call (Attribute (Name "aiohttp") "ClientSession") [])
        (Some "session")
        [ AsyncWith (Call (Attribute (Name "session") "get") [Name "url"])
            (Some "response")
            [ Return (Some (Await
                (Call (Attribute (Name "response") "text") []))) ] ] ].

(** Lines 29 to 32. *)
Definition UserManager_init : stmt :=
  FunctionDef "__init__"
    [ Arg "self" None; Arg "name" (Some (Name "str"))
    ; Arg "email" (Some (Name "str")) ] None
    [ Assign (Attribute (Name "self") "name") (Name "name")
    ; Assign (Attribute (Name "self") "email") (Name "email")
    ; Assign (Attribute (Name "self") "created_at")
        (Call (Attribute (Name "datetime") "now") []) ].

(** Lines 34 to 36. *)
Definition UserManager_get_name : stmt :=
  FunctionDef "get_name" [Arg "self" None] (Some (Name "str"))
    [ Expr (Str "Get user name.")
    ; Return (Some (Attribute (Name "self") "name")) ].

(** Lines 26 to 36. *)
Definition UserManager : stmt :=
  ClassDef "UserManager" []
    [ Expr (Str "Manages user operations.")
    ; UserManager_init
    ; UserManager_get_name ].

(** Lines 41 to 43. *)
Definition DatabaseConnection_connect : stmt :=
  FunctionDef "connect" [Arg "self" None] None
    [ Expr (Str "Connect to database."); Pass ].

(** Lines 38 to 43. *)
Definition DatabaseConnection : stmt :=
  ClassDef "DatabaseConnection" []
    [ Expr (Str "Handles database connections.")
    ; DatabaseConnection_connect ].

(** The statement of line 48. *)
Definition template : stmt :=
  Assign (Name "template")
    (JoinedStr [Str "Hello, "; FormattedValue (Name "name"); Str "!"]).

(** The module: its top level statements, each with the number of the
    line on which it starts. *)
Definition app : list (nat * stmt) :=
  [ (4, Import ["os"])
  ; (5, Import ["json"])
  ; (6, ImportFrom "typing" ["List"; "Dict"; "Optional"])
  ; (7, ImportFrom "datetime" ["datetime"])
  ; (10, calculate_total)
  ; (14, process_user_data)
  ; (19, fetch_data)
  ; (26, UserManager)
  ; (38, DatabaseConnection)
  ; (46, Assign (Name "welcome_message") (Str "Welcome to the application"))
  ; (47, Assign (Name "api_url") (Str "https://api.example.com/v1"))
  ; (48, template)
  ; (51, Assign (Name "MAX_USERS") (Num 1000))
  ; (52, Assign (Name "api_version") (Str "2.0.1"))
  ; (53, Assign (Name "user_ids")
           (ListE [Num 101; Num 102; Num 103; Num 204; Num 305]))
  ; (56, Assign (Name "email_pattern")
           (Str "\b[A-Za-z0-9._%+-]+@[A-Za-z0-9.-]+\.[A-Z|a-z]{2,}\b"))
  ; (57, Assign (Name "phone_pattern") (Str "^\+?[\d\s\-\(\)]+$"))
  ; (60, Assign (Name "config")
           (DictE [ (Str "static_path", Str "./static")
                  ; (Str "asset_path", Str "/assets/images")
                  ; (Str "data_path", Str "../data/records.json") ]))
  ].

Definition statements (m : list (nat * stmt)) : list stmt := map snd m.

(** *** Definitions *)

Definition function_name (s : stmt) : option string :=
  match s with
  | FunctionDef n _ _ _ | AsyncFunctionDef n _ _ _ => Some n
  | _ => None
  end.

Definition class_name (s : stmt) : option string :=
  match s with
  | ClassDef n _ _ => Some n
  | _ => None
  end.

Definition class_bases (s : stmt) : option (list expr) :=
  match s with
  | ClassDef _ bs _ => Some bs
  | _ => None
  end.

(** The functions and the classes defined by the statements of a block
    themselves (not by statements nested in them). *)
Definition defined_functions (b : list stmt) : list string :=
  omap function_name b.

Definition defined_classes (b : list stmt) : list string :=
  omap class_name b.

(** The methods: the functions defined by the body of a class. *)
Definition methods (s : stmt) : list string :=
  match s with
  | ClassDef _ _ body => defined_functions body
  | _ => []
  end.

(** Every function definition of a block, at any depth, in source
    order, with the name of the class around it if there is one. *)
Fixpoint functions_in (owner : option string) (s : stmt)
  : list (option string * stmt) :=
  let fix go (b : list stmt) : list (option string * stmt) :=
    match b with
    | [] => []
    | s' :: b' => functions_in owner s' ++ go b'
    end in
  let fix go_class (c : string) (b : list stmt)
    : list (option string * stmt) :=
    match b with
    | [] => []
    | s' :: b' => functions_in (Some c) s' ++ go_class c b'
    end in
  match s with
  | FunctionDef _ _ _ body | AsyncFunctionDef _ _ _ body =>
      (owner, s) :: go body
  | ClassDef c _ body => go_class c body
  | AsyncWith _ _ body => go body
  | _ => []
  end.

Definition all_functions (b : list stmt) : list (option string * stmt) :=
  concat (map (functions_in None) b).

Definition is_async (s : stmt) : bool :=
  match s with
  | AsyncFunctionDef _ _ _ _ => true
  | _ => false
  end.

(** *** Literals and names *)

(** The quoted literals of an expression.  The fragments of text
    between the braces of an f-string are constants of the tree but
    no literals of their own: they are passed over, the expressions in
    the braces are searched. *)
Fixpoint literals_expr (e : expr) : list string :=
  let fix all (es : list expr) : list string :=
    match es with
    | [] => []
    | e' :: es' => literals_expr e' ++ all es'
    end in
  let fix parts (es : list expr) : list string :=
    match es with
    | [] => []
    | Str _ :: es' => parts es'
    | e' :: es' => literals_expr e' ++ parts es'
    end in
  let fix items (kvs : list (expr * expr)) : list string :=
    match kvs with
    | [] => []
    | (k, v) :: kvs' => literals_expr k ++ literals_expr v ++ items kvs'
    end in
  match e with
  | Name _ | Num _ => []
  | Str s => [s]
  | JoinedStr vs => parts vs
  | FormattedValue v | Await v | Attribute v _ => literals_expr v
  | Call f xs => literals_expr f ++ all xs
  | Subscript v i => literals_expr v ++ literals_expr i
  | GeneratorExp elt _ it => literals_expr elt ++ literals_expr it
  | ListE es => all es
  | DictE kvs => items kvs
  end.

(** The names that an expression reads, in the order of evaluation. *)
Fixpoint names_expr (e : expr) : list string :=
  let fix all (es : list expr) : list string :=
    match es with
    | [] => []
    | e' :: es' => names_expr e' ++ all es'
    end in
  let fix items (kvs : list (expr * expr)) : list string :=
    match kvs with
    | [] => []
    | (k, v) :: kvs' => names_expr k ++ names_expr v ++ items kvs'
    end in
  match e with
  | Name x => [x]
  | Str _ | Num _ => []
  | JoinedStr vs => all vs
  | FormattedValue v | Await v | Attribute v _ => names_expr v
  | Call f xs => names_expr f ++ all xs
  | Subscript v i => names_expr v ++ names_expr i
  | GeneratorExp elt _ it => names_expr it ++ names_expr elt
  | ListE es => all es
  | DictE kvs => items kvs
  end.

Definition opt_list {A} (f : expr -> list A) (o : option expr) : list A :=
  match o with
  | Some e => f e
  | None => []
  end.

(** The expressions of a definition's header: the annotations of its
    parameters and of its result. *)
Definition header {A} (f : expr -> list A) (xs : list arg)
    (r : option expr) : list A :=
  concat (map (fun a => opt_list f (annotation a)) xs) ++ opt_list f r.

(** The expressions that an assignment to [t] evaluates: none for a
    plain name, the object for an attribute. *)
Definition target_exprs (t : expr) : list expr :=
  match t with
  | Name _ => []
  | Attribute v _ => [v]
  | Subscript v i => [v; i]
  | _ => [t]
  end.

(** [f] over every expression that a statement evaluates, nested
    statements included. *)
Fixpoint over_stmt {A} (f : expr -> list A) (s : stmt) : list A :=
  let fix block (b : list stmt) : list A :=
    match b with
    | [] => []
    | s' :: b' => over_stmt f s' ++ block b'
    end in
  match s with
  | Import _ | ImportFrom _ _ | Pass => []
  | FunctionDef _ xs r body | AsyncFunctionDef _ xs r body =>
      header f xs r ++ block body
  | ClassDef _ bs body => concat (map f bs) ++ block body
  | Return v => opt_list f v
  | Assign t v => f v ++ concat (map f (target_exprs t))
  | Expr v => f v
  | AsyncWith c _ body => f c ++ block body
  end.

Definition literals_stmt : stmt -> list string := over_stmt literals_expr.
Definition names_stmt : stmt -> list string := over_stmt names_expr.

Definition literals (m : list (nat * stmt)) : list string :=
  concat (map literals_stmt (statements m)).

(** The names read anywhere in the module, each with the line of the
    top level statement that reads it. *)
Definition references (m : list (nat * stmt)) : list (nat * string) :=
  concat (map (fun '(n, s) => map (pair n) (names_stmt s)) m).

(** The lines of the top level statements that read [x]. *)
Definition referenced_at (x : string) (m : list (nat * stmt)) : list nat :=
  omap (fun '(n, y) => if String.eqb x y then Some n else None)
       (references m).

(** The names that a block binds in its own namespace: imports,
    definitions, assigned names and [as] names; the bodies of nested
    definitions bind in namespaces of their own. *)
Fixpoint bindings (s : stmt) : list string :=
  let fix block (b : list stmt) : list string :=
    match b with
    | [] => []
    | s' :: b' => bindings s' ++ block b'
    end in
  match s with
  | Import ns => ns
  | ImportFrom _ ns => ns
  | FunctionDef n _ _ _ | AsyncFunctionDef n _ _ _ | ClassDef n _ _ => [n]
  | Assign (Name x) _ => [x]
  | AsyncWith _ (Some x) body => x :: block body
  | AsyncWith _ None body => block body
  | _ => []
  end.

Definition block_bindings (b : list stmt) : list string :=
  concat (map bindings b).

(** Every identifier written in an expression: names read or bound,
    attribute names and loop variables. *)
Fixpoint identifiers_expr (e : expr) : list string :=
  let fix all (es : list expr) : list string :=
    match es with
    | [] => []
    | e' :: es' => identifiers_expr e' ++ all es'
    end in
  let fix items (kvs : list (expr * expr)) : list string :=
    match kvs with
    | [] => []
    | (k, v) :: kvs' => identifiers_expr k ++ identifiers_expr v ++ items kvs'
    end in
  match e with
  | Name x => [x]
  | Str _ | Num _ => []
  | JoinedStr vs => all vs
  | FormattedValue v | Await v => identifiers_expr v
  | Attribute v a => identifiers_expr v ++ [a]
  | Call f xs => identifiers_expr f ++ all xs
  | Subscript v i => identifiers_expr v ++ identifiers_expr i
  | GeneratorExp elt x it => identifiers_expr elt ++ x :: identifiers_expr it
  | ListE es => all es
  | DictE kvs => items kvs
  end.

Definition identifiers_header (xs : list arg) (r : option expr)
  : list string :=
  concat (map (fun a => arg_name a :: opt_list identifiers_expr (annotation a))
              xs)
  ++ opt_list identifiers_expr r.

(** Every identifier written in a statement, in source order: the
    names it defines, imports, binds and reads, nested statements
    included. *)
Fixpoint identifiers (s : stmt) : list string :=
  let fix block (b : list stmt) : list string :=
    match b with
    | [] => []
    | s' :: b' => identifiers s' ++ block b'
    end in
  match s with
  | Import ns => ns
  | ImportFrom m ns => m :: ns
  | FunctionDef n xs r body | AsyncFunctionDef n xs r body =>
      n :: identifiers_header xs r ++ block body
  | ClassDef n bs body => n :: concat (map identifiers_expr bs) ++ block body
  | Return v => opt_list identifiers_expr v
  | Assign t v => identifiers_expr t ++ identifiers_expr v
  | Expr v => identifiers_expr v
  | Pass => []
  | AsyncWith c x body =>
      identifiers_expr c ++ match x with Some y => [y] | None => [] end
      ++ block body
  end.

(** How often the identifier [x] is written in [s]. *)
Definition mentions (x : string) (s : stmt) : nat :=
  length (filter (fun y => x = y) (identifiers s)).

(** *** Name binding at run time

    An interpreter of the statements that follows which names are bound
    when a name is read: the one way in which this file can fail.  A
    namespace is the list of its names, in the order of their binding.
    What the interpreter does not follow are the values: an attribute is
    taken to exist and a call to return, and a generator is taken to
    produce an element. *)

Inductive exn :=
| NameError (id : string)
| UnboundLocalError (id : string)
| ModuleNotFoundError (module : string)
| ImportError (module : string) (name : string)
| SyntaxError_return_outside_function.

Inductive outcome (A : Type) :=
| Ok (a : A)
| Raise (e : exn).
Arguments Ok {A} a.
Arguments Raise {A} e.

(** The interpreter that runs the file: its built-in names and the
    modules that it can import, each with the names it exports. *)
Record python_env := PythonEnv {
  is_builtin : string -> bool;
  exports : string -> option (list string)
}.

Inductive scope :=
| ModuleScope
| ClassScope (ns : list string)
| FunctionScope (fast : list string) (bound : list string).

Record frame := Frame { globals : list string; scope_of : scope }.

Inductive completion :=
| Next (f : frame)
| Returned
| Raised (e : exn).

Definition bound_in (x : string) (ns : list string) : bool :=
  existsb (String.eqb x) ns.

Definition add_name (x : string) (ns : list string) : list string :=
  if bound_in x ns then ns else ns ++ [x].

(** The names of a fresh module namespace. *)
Definition initial_globals : list string :=
  [ "__name__"; "__doc__"; "__package__"; "__loader__"; "__spec__"
  ; "__file__"; "__cached__"; "__builtins__" ].

(** The names with which a class body starts. *)
Definition initial_class_namespace : list string :=
  [ "__module__"; "__qualname__" ].

Definition bind_name (f : frame) (x : string) : frame :=
  match scope_of f with
  | ModuleScope => Frame (add_name x (globals f)) ModuleScope
  | ClassScope ns => Frame (globals f) (ClassScope (add_name x ns))
  | FunctionScope fast bound =>
      Frame (globals f) (FunctionScope fast (add_name x bound))
  end.

(** The scope of a generator expression: its loop variable, and the
    local names of the function around it. *)
Definition generator_frame (f : frame) (x : string) : frame :=
  match scope_of f with
  | FunctionScope fast bound =>
      Frame (globals f) (FunctionScope (x :: fast) (x :: bound))
  | _ => Frame (globals f) (FunctionScope [x] [x])
  end.

Section Interpreter.

Variable env : python_env.

Definition lookup_global (g : list string) (x : string) : outcome unit :=
  if bound_in x g || is_builtin env x then Ok tt else Raise (NameError x).

(** Reading the name [x]: a local name of a function must have been
    assigned; a class body looks in its namespace first; everything
    else is a global or a built-in name. *)
Definition lookup (f : frame) (x : string) : outcome unit :=
  match scope_of f with
  | ModuleScope => lookup_global (globals f) x
  | ClassScope ns =>
      if bound_in x ns then Ok tt else lookup_global (globals f) x
  | FunctionScope fast bound =>
      if bound_in x fast then
        if bound_in x bound then Ok tt else Raise (UnboundLocalError x)
      else lookup_global (globals f) x
  end.

Fixpoint eval (f : frame) (e : expr) : outcome unit :=
  let fix all (es : list expr) : outcome unit :=
    match es with
    | [] => Ok tt
    | e' :: es' =>
        match eval f e' with Ok _ => all es' | Raise x => Raise x end
    end in
  let fix items (kvs : list (expr * expr)) : outcome unit :=
    match kvs with
    | [] => Ok tt
    | (k, v) :: kvs' =>
        match eval f k with
        | Ok _ =>
            match eval f v with Ok _ => items kvs' | Raise x => Raise x end
        | Raise x => Raise x
        end
    end in
  match e with
  | Name x => lookup f x
  | Str _ | Num _ => Ok tt
  | JoinedStr vs => all vs
  | FormattedValue v | Await v | Attribute v _ => eval f v
  | Call fn xs =>
      match eval f fn with Ok _ => all xs | Raise x => Raise x end
  | Subscript v i =>
      match eval f v with Ok _ => eval f i | Raise x => Raise x end
  | GeneratorExp elt x it =>
      match eval f it with
      | Ok _ => eval (generator_frame f x) elt
      | Raise x => Raise x
      end
  | ListE es => all es
  | DictE kvs => items kvs
  end.

Fixpoint eval_all (f : frame) (es : list expr) : outcome unit :=
  match es with
  | [] => Ok tt
  | e :: es' => match eval f e with Ok _ => eval_all f es' | Raise x => Raise x end
  end.

(** A definition evaluates the annotations of its header, the
    parameters first. *)
Definition eval_header (f : frame) (xs : list arg) (r : option expr)
  : outcome unit :=
  eval_all f (header (fun e => [e]) xs r).

Fixpoint import_names (f : frame) (ns : list string) : completion :=
  match ns with
  | [] => Next f
  | n :: ns' =>
      match exports env n with
      | Some _ => import_names (bind_name f n) ns'
      | None => Raised (ModuleNotFoundError n)
      end
  end.

Fixpoint import_from_names (f : frame) (m : string) (ex ns : list string)
  : completion :=
  match ns with
  | [] => Next f
  | n :: ns' =>
      if bound_in n ex then import_from_names (bind_name f n) m ex ns'
      else Raised (ImportError m n)
  end.

Definition import_from (f : frame) (m : string) (ns : list string)
  : completion :=
  match exports env m with
  | Some ex => import_from_names f m ex ns
  | None => Raised (ModuleNotFoundError m)
  end.

Definition assign (f : frame) (t : expr) : completion :=
  match t with
  | Name x => Next (bind_name f x)
  | _ =>
      match eval_all f (target_exprs t) with
      | Ok _ => Next f
      | Raise x => Raised x
      end
  end.

Fixpoint exec (f : frame) (s : stmt) : completion :=
  let fix block (f : frame) (b : list stmt) : completion :=
    match b with
    | [] => Next f
    | s' :: b' =>
        match exec f s' with Next f' => block f' b' | c => c end
    end in
  match s with
  | Import ns => import_names f ns
  | ImportFrom m ns => import_from f m ns
  | FunctionDef n xs r _ | AsyncFunctionDef n xs r _ =>
      match eval_header f xs r with
      | Ok _ => Next (bind_name f n)
      | Raise x => Raised x
      end
  | ClassDef n bs body =>
      match eval_all f bs with
      | Ok _ =>
          match block (Frame (globals f) (ClassScope initial_class_namespace))
                      body with
          | Next _ => Next (bind_name f n)
          | Returned => Raised SyntaxError_return_outside_function
          | Raised x => Raised x
          end
      | Raise x => Raised x
      end
  | Return None => Returned
  | Return (Some v) =>
      match eval f v with Ok _ => Returned | Raise x => Raised x end
  | Assign t v =>
      match eval f v with Ok _ => assign f t | Raise x => Raised x end
  | Expr v =>
      match eval f v with Ok _ => Next f | Raise x => Raised x end
  | Pass => Next f
  | AsyncWith c x body =>
      match eval f c with
      | Ok _ =>
          block (match x with Some y => bind_name f y | None => f end) body
      | Raise x => Raised x
      end
  end.

Fixpoint exec_block (f : frame) (b : list stmt) : completion :=
  match b with
  | [] => Next f
  | s :: b' => match exec f s with Next f' => exec_block f' b' | c => c end
  end.

(** Running the body of a function whose parameters are [xs], with
    the globals [g]: the parameters are bound, the names that the body
    binds are local, and a body that runs to its end returns. *)
Definition run_body (g : list string) (xs : list arg) (body : list stmt)
  : completion :=
  let params := map arg_name xs in
  match exec_block
          (Frame g (FunctionScope (params ++ block_bindings body) params))
          body with
  | Next _ => Returned
  | c => c
  end.

(** Calling a function definition ([None] for other statements).  For
    an [async] definition this is the run of its coroutine. *)
Definition call (g : list string) (s : stmt) : option completion :=
  match s with
  | FunctionDef _ xs _ body | AsyncFunctionDef _ xs _ body =>
      Some (run_body g xs body)
  | _ => None
  end.

(** The run of a module: the lines of the statements that completed
    and how the run ended.  A run that fails reports the namespace as
    it was before the statement that failed. *)
Inductive module_result :=
| Finished (g : list string)
| Failed (line : nat) (e : exn) (g : list string).

Fixpoint run (g : list string) (m : list (nat * stmt))
  : list nat * module_result :=
  match m with
  | [] => ([], Finished g)
  | (n, s) :: m' =>
      match exec (Frame g ModuleScope) s with
      | Next f' =>
          let '(done, r) := run (globals f') m' in (n :: done, r)
      | Returned => ([], Failed n SyntaxError_return_outside_function g)
      | Raised x => ([], Failed n x g)
      end
  end.

Definition run_module (m : list (nat * stmt)) : list nat * module_result :=
  run initial_globals m.

End Interpreter.

(** An interpreter to run the file with: the built-in functions and
    types of Python 3, and the four modules that the file imports with
    their public names. *)
Definition python3_builtins : list string :=
  [ "abs"; "aiter"; "all"; "anext"; "any"; "ascii"; "bin"; "bool"
  ; "breakpoint"; "bytearray"; "bytes"; "callable"; "chr"; "classmethod"
  ; "compile"; "complex"; "delattr"; "dict"; "dir"; "divmod"; "enumerate"
  ; "eval"; "exec"; "filter"; "float"; "format"; "frozenset"; "getattr"
  ; "globals"; "hasattr"; "hash"; "help"; "hex"; "id"; "input"; "int"
  ; "isinstance"; "issubclass"; "iter"; "len"; "list"; "locals"; "map"
  ; "max"; "memoryview"; "min"; "next"; "object"; "oct"; "open"; "ord"
  ; "pow"; "print"; "property"; "range"; "repr"; "reversed"; "round"
  ; "set"; "setattr"; "slice"; "sorted"; "staticmethod"; "str"; "sum"
  ; "super"; "tuple"; "type"; "vars"; "zip"; "__import__"
  ; "Ellipsis"; "NotImplemented"; "__debug__"
  ; "BaseException"; "Exception"; "ArithmeticError"; "AssertionError"
  ; "AttributeError"; "ImportError"; "IndexError"; "KeyError"
  ; "LookupError"; "ModuleNotFoundError"; "NameError"
  ; "NotImplementedError"; "OSError"; "RuntimeError"; "StopIteration"
  ; "SyntaxError"; "TypeError"; "UnboundLocalError"; "ValueError"
  ; "ZeroDivisionError" ].

Definition python3_modules : list (string * list string) :=
  [ ("os", ["environ"; "getcwd"; "getenv"; "listdir"; "mkdir"; "path"
           ; "remove"; "sep"])
  ; ("json", ["JSONDecodeError"; "JSONDecoder"; "JSONEncoder"; "dump"
             ; "dumps"; "load"; "loads"])
  ; ("typing", ["Any"; "Callable"; "Dict"; "Iterable"; "List"; "Optional"
               ; "Sequence"; "Set"; "Tuple"; "Union"])
  ; ("datetime", ["MAXYEAR"; "MINYEAR"; "date"; "datetime"; "time"
                 ; "timedelta"; "timezone"; "tzinfo"]) ].

Definition python3 : python_env :=
  PythonEnv (fun x => bound_in x python3_builtins)
            (fun m => snd <$> find (fun p => String.eqb m (fst p))
                                   python3_modules).

(** [provides env m ns]: the module [m] can be imported and exports
    the names [ns]. *)
Definition provides (env : python_env) (m : string) (ns : list string)
  : bool :=
  match exports env m with
  | Some ex => forallb (fun n => bound_in n ex) ns
  | None => false
  end.

(** What the file takes from the interpreter that runs it: the modules
    of its four imports, the built-in names of its annotations and of
    [calculate_total], and that the names it never binds are no
    built-in names either. *)
Record Standard (env : python_env) : Prop := {
  std_os : provides env "os" [] = true;
  std_json : provides env "json" [] = true;
  std_typing : provides env "typing" ["List"; "Dict"; "Optional"] = true;
  std_datetime : provides env "datetime" ["datetime"] = true;
  std_int : is_builtin env "int" = true;
  std_str : is_builtin env "str" = true;
  std_sum : is_builtin env "sum" = true;
  std_name : is_builtin env "name" = false;
  std_requests : is_builtin env "requests" = false;
  std_aiohttp : is_builtin env "aiohttp" = false
}.

(** The namespace of the module as its run leaves it: the globals of
    its functions. *)
Definition module_namespace (env : python_env) (m : list (nat * stmt))
  : list string :=
  match snd (run_module env m) with
  | Finished g | Failed _ _ g => g
  end.

Definition call_in (env : python_env) (m : list (nat * stmt)) (s : stmt)
  : option completion :=
  call env (module_namespace env m) s.

(** *** The shapes of function bodies *)

Definition body_of (s : stmt) : list stmt :=
  match s with
  | FunctionDef _ _ _ body | AsyncFunctionDef _ _ _ body => body
  | _ => []
  end.

(** A body without its docstring. *)
Definition strip_docstring (b : list stmt) : list stmt :=
  match b with
  | Expr (Str _) :: b' => b'
  | _ => b
  end.

(** The body is one [return] of an expression. *)
Definition returns_expression (s : stmt) : bool :=
  match strip_docstring (body_of s) with
  | [Return (Some _)] => true
  | _ => false
  end.

(** The body is [pass]. *)
Definition is_stub (s : stmt) : bool :=
  match strip_docstring (body_of s) with
  | [Pass] => true
  | _ => false
  end.

(** The body reads a name that nothing binds: the name on which its
    run raises [NameError]. *)
Definition undefined_name (env : python_env) (m : list (nat * stmt))
    (s : stmt) : option string :=
  match call_in env m s with
  | Some (Raised (NameError x)) => Some x
  | _ => None
  end.

Definition in_three_shapes (env : python_env) (m : list (nat * stmt))
    (s : stmt) : bool :=
  returns_expression s || is_stub s
  || match undefined_name env m s with Some _ => true | None => false end.

(** The body is a sequence of assignments to attributes of one
    object. *)
Definition assigns_attributes (s : stmt) : option (list string) :=
  mapM (fun st => match st with
                  | Assign (Attribute (Name "self") a) _ => Some a
                  | _ => None
                  end)
       (strip_docstring (body_of s)).

(** *** The tree against the text *)

(** The line [l] opens the statement [s]: with its keyword and the
    name that it defines, imports from or assigns. *)
Definition opens (s : stmt) (l : string) : bool :=
  match s with
  | Import (n :: _) => bool_decide (Text.keyword_name "import" l = Some n)
  | ImportFrom m _ => bool_decide (Text.keyword_name "from" l = Some m)
  | FunctionDef n _ _ _ | AsyncFunctionDef n _ _ _ =>
      bool_decide (Text.def_name l = Some n)
  | ClassDef n _ _ => bool_decide (Text.class_name l = Some n)
  | Assign (Name x) _ => String.eqb (Text.take_word l) x
  | _ => false
  end.

(** The f-strings of the file, as the text has them. *)
Definition f_strings : list string :=
  [ "/api/users/{user_id}"; "Hello, {name}!" ].

(** The namespace of the module when its run stops. *)
Definition loaded : list string :=
  initial_globals ++
  [ "os"; "json"; "List"; "Dict"; "Optional"; "datetime"
  ; "calculate_total"; "process_user_data"; "fetch_data"
  ; "UserManager"; "DatabaseConnection"; "welcome_message"; "api_url" ].

(** The names that the statements from line 48 on would bind. *)
Definition never_bound : list string :=
  [ "template"; "MAX_USERS"; "api_version"; "user_ids"; "email_pattern"
  ; "phone_pattern"; "config" ].

(** The lines of the statements on which a run of the module can
    stop: the imports, the definitions that have annotations, the
    class statements and line 48.  (The interpreter above takes the
    class builder of Python for granted and completes lines 26 and 38;
    a Python without it stops there.) *)
Definition failing_lines : list nat :=
  [4; 5; 6; 7; 14; 19; 26; 38; 48]%nat.

(** The outcome of a run of the interpreter with [g] when the name
    [x] is what the body needs from outside. *)
Definition needs (env : python_env) (g : list string) (x : string)
  : completion :=
  if bound_in x g || is_builtin env x then Returned
  else Raised (NameError x).

(** A completion in which no read of a name has failed. *)
Definition name_safe (c : completion) : Prop :=
  match c with
  | Raised (NameError _) | Raised (UnboundLocalError _) => False
  | _ => True
  end.

(** [x] is the one name that a body can find unbound: without it the
    run raises [NameError] for [x], with it no read of a name fails. *)
Definition only_needs (env : python_env) (g : list string) (x : string)
    (c : completion) : Prop :=
  if bound_in x g || is_builtin env x then name_safe c
  else c = Raised (NameError x).

(** A run that has stopped: on one of [failing_lines], with none of
    [never_bound] bound. *)
Definition stopped_early (r : module_result) : Prop :=
  exists n e g,
    r = Failed n e g
    /\ In n failing_lines
    /\ forallb (fun x => negb (bound_in x g)) never_bound = true.

(** Six of the literals of the file: the messages, the version and
    the paths. *)
Definition expected_literals : list string :=
  [ "Welcome to the application"; "https://api.example.com/v1"; "2.0.1"
  ; "./static"; "/assets/images"; "../data/records.json" ].

End Ast.

(* ===================================================================== *)
(** ** The code that computes *)
(* ===================================================================== *)

Module Runtime.

(** The values that the functions handle.  A timestamp stands for the
    result of [datetime.now()]. *)
Inductive value :=
| VNone
| VInt (n : Z)
| VStr (s : string)
| VDatetime (t : Z).

Inductive error :=
| AttributeError (attr : string)
| TypeError.

Inductive result (A : Type) :=
| Ok (a : A)
| Err (e : error).
Arguments Ok {A} a.
Arguments Err {A} e.

(** An object is its attribute dictionary. *)
Definition getattr (o : gmap string value) (a : string) : result value :=
  match o !! a with
  | Some v => Ok v
  | None => Err (AttributeError a)
  end.

Definition setattr (o : gmap string value) (a : string) (v : value)
  : gmap string value :=
  <[a := v]> o.

(** [a + b]: defined on two integers and on two strings. *)
Definition add (a b : value) : result value :=
  match a, b with
  | VInt x, VInt y => Ok (VInt (x + y))
  | VStr x, VStr y => Ok (VStr (x +:+ y))
  | _, _ => Err TypeError
  end.

(** A generator [(f x for x in xs)]: its elements, each computed when
    it is asked for. *)
Definition generator {A} (f : A -> result value) (xs : list A)
  : list (result value) :=
  map f xs.

(** The built-in [sum]: from 0, each element added to the total in
    turn; the first error ends it. *)
Fixpoint sum_from (acc : value) (xs : list (result value)) : result value :=
  match xs with
  | [] => Ok acc
  | Err e :: _ => Err e
  | Ok x :: xs' =>
      match add acc x with
      | Ok acc' => sum_from acc' xs'
      | Err e => Err e
      end
  end.

Definition sum (xs : list (result value)) : result value :=
  sum_from (VInt 0) xs.

(** [return sum(item.price for item in items)] *)
Definition calculate_total (items : list (gmap string value))
  : result value :=
  sum (generator (fun item => getattr item "price") items).

(** The sum of a list of prices, as arithmetic has it. *)
Definition total (prices : list Z) : Z := foldr Z.add 0%Z prices.

(** An item whose attribute [price] is the integer [p]. *)
Definition priced (item : gmap string value) (p : Z) : Prop :=
  item !! "price" = Some (VInt p).

(** The integer price of an item, 0 for an item that has none. *)
Definition price_of (item : gmap string value) : Z :=
  match item !! "price" with
  | Some (VInt p) => p
  | _ => 0%Z
  end.

(** The values that are no integers. *)
Definition not_integer (v : value) : bool :=
  match v with
  | VInt _ => false
  | _ => true
  end.

Module UserManager.

(** [__init__(self, name, email)], at the time [now]. *)
Definition __init__ (now : Z) (self : gmap string value)
    (name email : value) : gmap string value :=
  let self := setattr self "name" name in
  let self := setattr self "email" email in
  setattr self "created_at" (VDatetime now).

(** [UserManager(name, email)]: a new object, then [__init__]. *)
Definition new (now : Z) (name email : value) : gmap string value :=
  __init__ now ∅ name email.

(** [get_name(self)]: the result and the object after the call. *)
Definition get_name (self : gmap string value)
  : result value * gmap string value :=
  (getattr self "name", self).

(** The operations of the class on an instance. *)
Inductive operation :=
| Init (now : Z) (name email : value)
| GetName.

Definition apply (self : gmap string value) (op : operation)
  : gmap string value :=
  match op with
  | Init now name email => __init__ now self name email
  | GetName => snd (get_name self)
  end.

Definition attributes : gset string := {[ "name"; "email"; "created_at" ]}.

(** The name that the last [__init__] of a history gave, [name] if the
    history has none. *)
Definition last_name (name : value) (ops : list operation) : value :=
  foldl (fun n op => match op with Init _ n' _ => n' | GetName => n end)
        name ops.

End UserManager.

Module DatabaseConnection.

(** [connect(self)]: [pass], so the call returns [None]. *)
Definition connect (self : gmap string value)
  : result value * gmap string value :=
  (Ok VNone, self).

End DatabaseConnection.

End Runtime.

(* ===================================================================== *)
(** ** Properties *)
(* ===================================================================== *)

Module AstFacts.
Import Ast.

Lemma import_from_names_provided f m ex ns :
  forallb (fun n => bound_in n ex) ns = true ->
  import_from_names f m ex ns = Next (fold_left bind_name ns f).
Proof.
  revert f. induction ns as [|n ns IH]; intros f H; simpl in *.
  - reflexivity.
  - apply andb_true_iff in H as [Hn Hns]. rewrite Hn. now apply IH.
Qed.

(** *** The two embeddings agree *)

(** Every top level statement of the tree starts on the line of the
    text that its number names. *)
Lemma statements_open_their_lines :
  forallb (fun p => opens (snd p) (nth (fst p - 1) Text.source "")) app = true.
Proof. vm_compute. reflexivity. Qed.

(** The literals that the scanner finds in the text are the string
    constants of the tree and the two f-strings, in the same order. *)
Lemma literals_of_text_and_tree :
  List.filter (fun s => negb (bound_in s f_strings))
              (Text.string_literals Text.source)
  = literals app
  /\ List.filter (fun s => bound_in s f_strings)
                 (Text.string_literals Text.source)
     = f_strings.
Proof. split; vm_compute; reflexivity. Qed.

(** *** Induction over the tree *)

Section ExprInduction.

Variable P : expr -> Prop.

Hypothesis HName : forall x, P (Name x).
Hypothesis HStr : forall s, P (Str s).
Hypothesis HNum : forall n, P (Num n).
Hypothesis HJoinedStr : forall vs, Forall P vs -> P (JoinedStr vs).
Hypothesis HFormattedValue : forall v, P v -> P (FormattedValue v).
Hypothesis HAttribute : forall v a, P v -> P (Attribute v a).
Hypothesis HCall : forall f xs, P f -> Forall P xs -> P (Call f xs).
Hypothesis HSubscript : forall v i, P v -> P i -> P (Subscript v i).
Hypothesis HGeneratorExp :
  forall elt x it, P elt -> P it -> P (GeneratorExp elt x it).
Hypothesis HAwait : forall v, P v -> P (Await v).
Hypothesis HListE : forall es, Forall P es -> P (ListE es).
Hypothesis HDictE :
  forall kvs, Forall (fun kv => P (fst kv) /\ P (snd kv)) kvs -> P (DictE kvs).

Fixpoint expr_induction (e : expr) : P e :=
  let fix all (es : list expr) : Forall P es :=
    match es with
    | [] => List.Forall_nil P
    | e' :: es' => List.Forall_cons P e' es' (expr_induction e') (all es')
    end in
  let fix items (kvs : list (expr * expr))
    : Forall (fun kv => P (fst kv) /\ P (snd kv)) kvs :=
    match kvs with
    | [] => List.Forall_nil _
    | (k, v) :: kvs' =>
        List.Forall_cons _ (k, v) kvs'
          (conj (expr_induction k) (expr_induction v)) (items kvs')
    end in
  match e with
  | Name x => HName x
  | Str s => HStr s
  | Num n => HNum n
  | JoinedStr vs => HJoinedStr vs (all vs)
  | FormattedValue v => HFormattedValue v (expr_induction v)
  | Attribute v a => HAttribute v a (expr_induction v)
  | Call f xs => HCall f xs (expr_induction f) (all xs)
  | Subscript v i => HSubscript v i (expr_induction v) (expr_induction i)
  | GeneratorExp elt x it =>
      HGeneratorExp elt x it (expr_induction elt) (expr_induction it)
  | Await v => HAwait v (expr_induction v)
  | ListE es => HListE es (all es)
  | DictE kvs => HDictE kvs (items kvs)
  end.

End ExprInduction.

Section StmtInduction.

Variable P : stmt -> Prop.

Hypothesis HImport : forall ns, P (Import ns).
Hypothesis HImportFrom : forall m ns, P (ImportFrom m ns).
Hypothesis HFunctionDef :
  forall n xs r body, Forall P body -> P (FunctionDef n xs r body).
Hypothesis HAsyncFunctionDef :
  forall n xs r body, Forall P body -> P (AsyncFunctionDef n xs r body).
Hypothesis HClassDef :
  forall n bs body, Forall P body -> P (ClassDef n bs body).
Hypothesis HReturn : forall v, P (Return v).
Hypothesis HAssign : forall t v, P (Assign t v).
Hypothesis HExpr : forall v, P (Expr v).
Hypothesis HPass : P Pass.
Hypothesis HAsyncWith :
  forall c x body, Forall P body -> P (AsyncWith c x body).

Fixpoint stmt_induction (s : stmt) : P s :=
  let fix block (b : list stmt) : Forall P b :=
    match b with
    | [] => List.Forall_nil P
    | s' :: b' => List.Forall_cons P s' b' (stmt_induction s') (block b')
    end in
  match s with
  | Import ns => HImport ns
  | ImportFrom m ns => HImportFrom m ns
  | FunctionDef n xs r body => HFunctionDef n xs r body (block body)
  | AsyncFunctionDef n xs r body => HAsyncFunctionDef n xs r body (block body)
  | ClassDef n bs body => HClassDef n bs body (block body)
  | Return v => HReturn v
  | Assign t v => HAssign t v
  | Expr v => HExpr v
  | Pass => HPass
  | AsyncWith c x body => HAsyncWith c x body (block body)
  end.

End StmtInduction.

(** *** The names read are among the identifiers written *)

Lemma names_in_identifiers_expr e : names_expr e ⊆ identifiers_expr e.
Proof.
  induction e as
    [ x | s | n | vs IH | v IH | v a IH | f xs IHf IHxs | v i IHv IHi
    | elt x it IHelt IHit | v IH | es IH | kvs IH ] using expr_induction;
    simpl; try set_solver.
  - induction IH; simpl; set_solver.
  - assert (H : (fix all (es : list expr) : list string :=
                   match es with
                   | [] => []
                   | e' :: es' => names_expr e' ++ all es'
                   end) xs
                ⊆ (fix all (es : list expr) : list string :=
                     match es with
                     | [] => []
                     | e' :: es' => identifiers_expr e' ++ all es'
                     end) xs)
      by (induction IHxs; simpl; set_solver).
    set_solver.
  - induction IH; simpl; set_solver.
  - induction IH as [|[k v] kvs [Hk Hv] _ IH]; simpl in *; set_solver.
Qed.

Lemma names_in_identifiers_exprs es :
  concat (map names_expr es) ⊆ concat (map identifiers_expr es).
Proof.
  induction es as [|e es IH]; simpl; [set_solver|].
  pose proof (names_in_identifiers_expr e). set_solver.
Qed.

Lemma names_in_identifiers_opt o :
  opt_list names_expr o ⊆ opt_list identifiers_expr o.
Proof. destruct o; simpl; [apply names_in_identifiers_expr | set_solver]. Qed.

Lemma names_in_identifiers_header xs r :
  header names_expr xs r ⊆ identifiers_header xs r.
Proof.
  unfold header, identifiers_header.
  pose proof (names_in_identifiers_opt r) as Hr.
  assert (H : concat (map (fun a => opt_list names_expr (annotation a)) xs)
              ⊆ concat (map (fun a => arg_name a
                               :: opt_list identifiers_expr (annotation a)) xs)).
  { induction xs as [|a xs IH]; simpl; [set_solver|].
    pose proof (names_in_identifiers_opt (annotation a)). set_solver. }
  set_solver.
Qed.

Lemma names_in_identifiers_target t :
  concat (map names_expr (target_exprs t)) ⊆ identifiers_expr t.
Proof.
  destruct t as [x|s|n|vs|v|v a|f xs|v i|elt x it|v|es|kvs];
    cbn [target_exprs map concat]; rewrite ?app_nil_r;
    try apply names_in_identifiers_expr.
  - set_solver.
  - pose proof (names_in_identifiers_expr v). simpl. set_solver.
  - pose proof (names_in_identifiers_expr v).
    pose proof (names_in_identifiers_expr i). simpl. set_solver.
Qed.

(** The blocks of nested statements, as maps over their statements. *)
Lemma over_stmt_class {A} (f : expr -> list A) n body :
  over_stmt f (ClassDef n [] body) = concat (map (over_stmt f) body).
Proof. simpl. induction body as [|s b IH]; simpl; [|rewrite IH]; reflexivity. Qed.

Lemma identifiers_class n body :
  identifiers (ClassDef n [] body) = n :: concat (map identifiers body).
Proof.
  simpl. f_equal.
  induction body as [|s b IH]; simpl; [|rewrite IH]; reflexivity.
Qed.

Lemma concat_map_subseteq (f g : stmt -> list string) (b : list stmt) :
  Forall (fun s => f s ⊆ g s) b -> concat (map f b) ⊆ concat (map g b).
Proof. induction 1; simpl; set_solver. Qed.

Lemma names_in_identifiers_block n body :
  Forall (fun s => over_stmt names_expr s ⊆ identifiers s) body ->
  over_stmt names_expr (ClassDef n [] body)
  ⊆ tail (identifiers (ClassDef n [] body)).
Proof.
  intros H. rewrite over_stmt_class, identifiers_class. simpl.
  now apply concat_map_subseteq.
Qed.

Lemma names_in_identifiers s : names_stmt s ⊆ identifiers s.
Proof.
  unfold names_stmt.
  induction s as
    [ ns | m ns | n xs r body IH | n xs r body IH | n bs body IH | v | t v
    | v | | c x body IH ] using stmt_induction.
  - simpl. set_solver.
  - simpl. set_solver.
  - pose proof (names_in_identifiers_header xs r).
    pose proof (names_in_identifiers_block n body IH) as Hb.
    change (over_stmt names_expr (FunctionDef n xs r body))
      with (header names_expr xs r
              ++ over_stmt names_expr (ClassDef n [] body)).
    change (identifiers (FunctionDef n xs r body))
      with (n :: identifiers_header xs r
              ++ tail (identifiers (ClassDef n [] body))).
    set_solver.
  - pose proof (names_in_identifiers_header xs r).
    pose proof (names_in_identifiers_block n body IH) as Hb.
    change (over_stmt names_expr (AsyncFunctionDef n xs r body))
      with (header names_expr xs r
              ++ over_stmt names_expr (ClassDef n [] body)).
    change (identifiers (AsyncFunctionDef n xs r body))
      with (n :: identifiers_header xs r
              ++ tail (identifiers (ClassDef n [] body))).
    set_solver.
  - pose proof (names_in_identifiers_block n body IH) as Hb.
    pose proof (names_in_identifiers_exprs bs) as Hbs.
    change (over_stmt names_expr (ClassDef n bs body))
      with (concat (map names_expr bs)
              ++ over_stmt names_expr (ClassDef n [] body)).
    change (identifiers (ClassDef n bs body))
      with (n :: concat (map identifiers_expr bs)
              ++ tail (identifiers (ClassDef n [] body))).
    set_solver.
  - apply names_in_identifiers_opt.
  - pose proof (names_in_identifiers_expr v).
    pose proof (names_in_identifiers_target t). simpl. set_solver.
  - apply names_in_identifiers_expr.
  - simpl. set_solver.
  - pose proof (names_in_identifiers_expr c).
    pose proof (names_in_identifiers_block "" body IH) as Hb.
    change (over_stmt names_expr (AsyncWith c x body))
      with (names_expr c ++ over_stmt names_expr (ClassDef "" [] body)).
    change (identifiers (AsyncWith c x body))
      with (identifiers_expr c
              ++ match x with Some y => [y] | None => [] end
              ++ tail (identifiers (ClassDef "" [] body))).
    set_solver.
Qed.

(** A statement that does not write [x] does not read it. *)
Lemma unmentioned_not_read x s : mentions x s = 0%nat -> x ∉ names_stmt s.
Proof.
  unfold mentions. intros H Hin.
  apply names_in_identifiers in Hin.
  apply length_zero_iff_nil in H.
  assert (Hx : x ∈ filter (fun y => x = y) (identifiers s))
    by (apply list_elem_of_filter; auto).
  rewrite H in Hx. inversion Hx.
Qed.

(** *** A [NameError] names a name that the expression reads *)

Lemma lookup_name_error env f y x :
  lookup env f y = Raise (NameError x) -> x = y.
Proof.
  unfold lookup, lookup_global.
  destruct (scope_of f) as [|ns|fast bound];
    repeat match goal with
           | |- context [if ?b then _ else _] => destruct b
           end; congruence.
Qed.

Lemma eval_name_error env e : forall f x,
  eval env f e = Raise (NameError x) -> x ∈ names_expr e.
Proof.
  induction e as
    [ y | s | n | vs IH | v IH | v a IH | fn xs IHf IHxs | v i IHv IHi
    | elt y it IHelt IHit | v IH | es IH | kvs IH ] using expr_induction;
    intros f x; simpl; try discriminate; eauto.
  - intros H. apply lookup_name_error in H. set_solver.
  - induction IH as [|e es He _ IHes]; simpl; [discriminate|].
    destruct (eval env f e) eqn:E; [set_solver|].
    intros [= ->]. apply He in E. set_solver.
  - destruct (eval env f fn) eqn:E.
    + intros H. apply elem_of_app. right. revert H.
      induction IHxs as [|e es He _ IHes]; simpl; [discriminate|].
      destruct (eval env f e) eqn:E'; [set_solver|].
      intros [= ->]. apply He in E'. set_solver.
    + intros [= ->]. apply IHf in E. set_solver.
  - destruct (eval env f v) eqn:E.
    + intros H. apply IHi in H. set_solver.
    + intros [= ->]. apply IHv in E. set_solver.
  - destruct (eval env f it) eqn:E.
    + intros H. apply IHelt in H. set_solver.
    + intros [= ->]. apply IHit in E. set_solver.
  - induction IH as [|e es' He _ IHes]; simpl; [discriminate|].
    destruct (eval env f e) eqn:E; [set_solver|].
    intros [= ->]. apply He in E. set_solver.
  - induction IH as [|[k v] kvs [Hk Hv] _ IHkvs]; simpl in *; [discriminate|].
    destruct (eval env f k) eqn:Ek.
    + destruct (eval env f v) eqn:Ev; [set_solver|].
      intros [= ->]. apply Hv in Ev. set_solver.
    + intros [= ->]. apply Hk in Ek. set_solver.
Qed.

Section Standard.

Context (env : python_env) (Hstd : Standard env).

Lemma import_names_provided f m :
  provides env m [] = true ->
  import_names env f [m] = Next (bind_name f m).
Proof.
  unfold provides. simpl. destruct (exports env m); [reflexivity | discriminate].
Qed.

Lemma import_from_provided f m ns :
  provides env m ns = true ->
  import_from env f m ns = Next (fold_left bind_name ns f).
Proof.
  unfold provides, import_from. destruct (exports env m) as [ex|].
  - apply import_from_names_provided.
  - discriminate.
Qed.

Lemma lookup_global_bound g x :
  bound_in x g = true -> lookup_global env g x = Ok tt.
Proof. unfold lookup_global. now intros ->. Qed.

Lemma lookup_global_builtin g x :
  is_builtin env x = true -> lookup_global env g x = Ok tt.
Proof. unfold lookup_global. intros ->. now rewrite orb_true_r. Qed.

Lemma lookup_global_unbound g x :
  bound_in x g = false -> is_builtin env x = false ->
  lookup_global env g x = Raise (NameError x).
Proof. unfold lookup_global. now intros -> ->. Qed.

(** A run under [Standard]: compute, then settle the imports and the
    reads of global names, until the run has ended. *)
Local Ltac run_names :=
  repeat (progress (cbn -[import_names import_from];
    rewrite ?import_names_provided, ?import_from_provided by assumption;
    rewrite ?lookup_global_builtin by assumption;
    rewrite ?lookup_global_bound by reflexivity;
    rewrite ?lookup_global_unbound by (reflexivity || assumption))).

Lemma run_app :
  run_module env app
  = ([4; 5; 6; 7; 10; 14; 19; 26; 38; 46; 47],
     Failed 48 (NameError "name") loaded).
Proof.
  destruct Hstd.
  unfold run_module, app.
  run_names. reflexivity.
Qed.

Lemma namespace_app : module_namespace env app = loaded.
Proof. unfold module_namespace. now rewrite run_app. Qed.

Lemma call_calculate_total : call_in env app calculate_total = Some Returned.
Proof.
  unfold call_in. rewrite namespace_app. destruct Hstd.
  unfold call, calculate_total, run_body. run_names. reflexivity.
Qed.

Lemma call_process_user_data :
  call_in env app process_user_data = Some (Raised (NameError "requests")).
Proof.
  unfold call_in. rewrite namespace_app. destruct Hstd.
  unfold call, process_user_data, run_body. run_names. reflexivity.
Qed.

Lemma call_fetch_data :
  call_in env app fetch_data = Some (Raised (NameError "aiohttp")).
Proof.
  unfold call_in. rewrite namespace_app. destruct Hstd.
  unfold call, fetch_data, run_body. run_names. reflexivity.
Qed.

Lemma call_init : call_in env app UserManager_init = Some Returned.
Proof.
  unfold call_in. rewrite namespace_app. destruct Hstd.
  unfold call, UserManager_init, run_body. run_names. reflexivity.
Qed.

Lemma call_get_name : call_in env app UserManager_get_name = Some Returned.
Proof.
  unfold call_in. rewrite namespace_app.
  unfold call, UserManager_get_name, run_body. run_names. reflexivity.
Qed.

Lemma call_connect :
  call_in env app DatabaseConnection_connect = Some Returned.
Proof.
  unfold call_in. rewrite namespace_app.
  unfold call, DatabaseConnection_connect, run_body. run_names. reflexivity.
Qed.

(** C10.  Run by an interpreter that has the modules of the four
    imports and the built-in names [int] and [str], and in which [name]
    is no built-in name, the module stops on line 48, at
    [template = f"Hello, {name}!"], with [NameError] for [name]; the
    statements of lines 4, 5, 6, 7 (imports), 10, 14, 19 (the three
    functions), 26, 38 (the two classes), 46 and 47 ([welcome_message],
    [api_url]) have completed before, and nothing after line 48 runs:
    [template] and the later names are never bound. *)
Theorem module_run_stops_at_template :
  nth_error app 11 = Some (48, template)
  /\ nth_error Text.source 47
     = Some ("template = f" +:+ Text.dq +:+ "Hello, {name}!" +:+ Text.dq)
  /\ run_module env app
     = ([4; 5; 6; 7; 10; 14; 19; 26; 38; 46; 47],
        Failed 48 (NameError "name") loaded)
  /\ map fst (firstn 11 app) = [4; 5; 6; 7; 10; 14; 19; 26; 38; 46; 47]
  /\ bound_in "name" loaded = false
  /\ bound_in "template" loaded = false.
Proof.
  split; [reflexivity|]. split; [reflexivity|]. split; [apply run_app|].
  repeat split; reflexivity.
Qed.

(** C4, as the code has it.  Of the six function bodies of the file,
    five have one of the three shapes: [calculate_total] and
    [UserManager.get_name] are one [return] of an expression and run to
    it; [DatabaseConnection.connect] is [pass]; the run of
    [process_user_data] raises [NameError] for [requests] and that of
    [fetch_data] for [aiohttp].  The sixth, [UserManager.__init__], has
    none of them: it is three assignments to attributes of [self], and
    runs to its end. *)
Theorem function_body_shapes :
  map (fun p => (fst p, function_name (snd p), in_three_shapes env app (snd p)))
      (all_functions (statements app))
  = [ (None, Some "calculate_total", true)
    ; (None, Some "process_user_data", true)
    ; (None, Some "fetch_data", true)
    ; (Some "UserManager", Some "__init__", false)
    ; (Some "UserManager", Some "get_name", true)
    ; (Some "DatabaseConnection", Some "connect", true) ]
  /\ (returns_expression calculate_total = true
      /\ call_in env app calculate_total = Some Returned)
  /\ (returns_expression UserManager_get_name = true
      /\ call_in env app UserManager_get_name = Some Returned)
  /\ is_stub DatabaseConnection_connect = true
  /\ undefined_name env app process_user_data = Some "requests"
  /\ undefined_name env app fetch_data = Some "aiohttp"
  /\ (assigns_attributes UserManager_init
        = Some ["name"; "email"; "created_at"]
      /\ call_in env app UserManager_init = Some Returned).
Proof.
  assert (Hp : undefined_name env app process_user_data = Some "requests")
    by (unfold undefined_name; now rewrite call_process_user_data).
  assert (Hf : undefined_name env app fetch_data = Some "aiohttp")
    by (unfold undefined_name; now rewrite call_fetch_data).
  assert (Hi : undefined_name env app UserManager_init = None)
    by (unfold undefined_name; now rewrite call_init).
  split.
  - change (all_functions (statements app)) with
      [ (@None string, calculate_total); (None, process_user_data)
      ; (None, fetch_data); (Some "UserManager", UserManager_init)
      ; (Some "UserManager", UserManager_get_name)
      ; (Some "DatabaseConnection", DatabaseConnection_connect) ].
    unfold in_three_shapes. cbn [map fst snd]. rewrite Hp, Hf, Hi.
    reflexivity.
  - repeat split; auto using call_calculate_total, call_get_name, call_init.
Qed.

End Standard.

Lemma module_run_stops_at_template_python3 :
  Standard python3
  /\ run_module python3 app
     = ([4; 5; 6; 7; 10; 14; 19; 26; 38; 46; 47],
        Failed 48 (NameError "name") loaded).
Proof.
  assert (H : Standard python3) by (constructor; reflexivity).
  split; [exact H|].
  exact (proj1 (proj2 (proj2 (module_run_stops_at_template python3 H)))).
Defined.

Lemma function_body_shapes_python3 :
  Standard python3
  /\ undefined_name python3 app process_user_data = Some "requests".
Proof.
  assert (H : Standard python3) by (constructor; reflexivity).
  split; [exact H|].
  exact (proj1 (proj2 (proj2 (proj2 (proj2
           (function_body_shapes python3 H)))))).
Defined.

(** C4, as the claim has it, fails: [UserManager.__init__] is a function
    body of the file with none of the three shapes. *)
Lemma init_has_no_shape :
  ~ Forall (fun p => in_three_shapes python3 app (snd p) = true)
           (all_functions (statements app)).
Proof.
  intros H. rewrite Forall_forall in H.
  specialize (H (Some "UserManager", UserManager_init)).
  assert (Hin : (Some "UserManager", UserManager_init)
                 ∈ all_functions (statements app))
    by (apply list_elem_of_In; cbn; tauto).
  specialize (H Hin). vm_compute in H. discriminate.
Qed.

(** C1.  The functions that the top level statements of the file
    define are [calculate_total], [process_user_data] and [fetch_data],
    in this order: in the tree, and in the text as the definitions whose
    keyword stands at column 0.  The three other definitions of the file
    are methods: the bodies of the two classes define them, four columns
    in. *)
Theorem toplevel_function_names :
  defined_functions (statements app)
  = ["calculate_total"; "process_user_data"; "fetch_data"]
  /\ Text.toplevel_defs Text.source
     = ["calculate_total"; "process_user_data"; "fetch_data"]
  /\ methods UserManager = ["__init__"; "get_name"]
  /\ methods DatabaseConnection = ["connect"]
  /\ Text.all_defs Text.source
     = [ (0, "calculate_total"); (0, "process_user_data"); (0, "fetch_data")
       ; (4, "__init__"); (4, "get_name"); (4, "connect") ].
Proof. repeat split; vm_compute; reflexivity. Qed.

(** C2.  The classes that the top level statements of the file define
    are [UserManager] and [DatabaseConnection], in this order: in the
    tree and in the text. *)
Theorem toplevel_class_names :
  defined_classes (statements app) = ["UserManager"; "DatabaseConnection"]
  /\ Text.toplevel_classes Text.source
     = ["UserManager"; "DatabaseConnection"].
Proof. split; vm_compute; reflexivity. Qed.

(** C3.  Each of the six strings is a quoted literal of the file: the
    scanner of the text finds it between quotes, and it is a string
    constant of the tree.  (The scanner ends in code: every literal of
    the file is closed.) *)
Theorem literals_include_expected :
  Forall (fun s => s ∈ Text.string_literals Text.source) expected_literals
  /\ Forall (fun s => s ∈ literals app) expected_literals
  /\ Text.final_state Text.source = Text.Code.
Proof.
  split; [|split].
  - apply (bool_decide_unpack _). vm_compute. exact I.
  - apply (bool_decide_unpack _). vm_compute. exact I.
  - vm_compute. reflexivity.
Qed.

(** C5.  Neither class name is written anywhere in the file but in the
    header of its own class: of the top level statements, only the one
    of line 26 writes [UserManager] and only the one of line 38 writes
    [DatabaseConnection], each once and as the name it defines; neither
    class has a base class; no expression of the file, inside or outside
    the classes, reads either name; in the text each name stands on its
    header line alone. *)
Theorem classes_never_referenced :
  Forall (fun p => mentions "UserManager" (snd p)
                   = if (fst p =? 26)%nat then 1%nat else 0%nat) app
  /\ Forall (fun p => mentions "DatabaseConnection" (snd p)
                      = if (fst p =? 38)%nat then 1%nat else 0%nat) app
  /\ hd_error (identifiers UserManager) = Some "UserManager"
  /\ hd_error (identifiers DatabaseConnection) = Some "DatabaseConnection"
  /\ class_bases UserManager = Some []
  /\ class_bases DatabaseConnection = Some []
  /\ referenced_at "UserManager" app = []
  /\ referenced_at "DatabaseConnection" app = []
  /\ Text.lines_with_word "UserManager" Text.source = [26%nat]
  /\ Text.lines_with_word "DatabaseConnection" Text.source = [38%nat].
Proof.
  split; [|split].
  - unfold app. repeat constructor.
  - unfold app. repeat constructor.
  - repeat split; vm_compute; reflexivity.
Qed.

(** C6.  [fetch_data] is the one [async] definition of the file, and
    nothing calls it: of the top level statements only its own, on line
    19, writes the name, once and as the name it defines; no expression
    of the file reads it; in the text it stands on line 19 alone. *)
Theorem fetch_data_has_no_caller :
  filter (fun s => is_async s = true)
         (map snd (all_functions (statements app))) = [fetch_data]
  /\ Forall (fun p => mentions "fetch_data" (snd p)
                      = if (fst p =? 19)%nat then 1%nat else 0%nat) app
  /\ hd_error (identifiers fetch_data) = Some "fetch_data"
  /\ referenced_at "fetch_data" app = []
  /\ Text.lines_with_word "fetch_data" Text.source = [19%nat].
Proof.
  split; [|split].
  - vm_compute. reflexivity.
  - unfold app. repeat constructor.
  - repeat split; vm_compute; reflexivity.
Qed.

(** *** What each function needs from its globals *)

Section AnyGlobals.

Context (env : python_env) (g : list string).

Local Ltac run_body_needing x :=
  unfold call, run_body, needs; cbn;
  unfold lookup_global;
  destruct (bound_in x g || is_builtin env x); reflexivity.

(** The runs of the three bodies by the interpreter of name binding,
    in which every attribute is there and every call returns. *)
Lemma run_process_user_data :
  call env g process_user_data = Some (needs env g "requests").
Proof. run_body_needing "requests". Qed.

Lemma run_fetch_data :
  call env g fetch_data = Some (needs env g "aiohttp").
Proof. run_body_needing "aiohttp". Qed.

Lemma run_init :
  call env g UserManager_init = Some (needs env g "datetime").
Proof. run_body_needing "datetime". Qed.

Lemma needs_only_needs x : only_needs env g x (needs env g x).
Proof.
  unfold only_needs, needs.
  destruct (bound_in x g || is_builtin env x); simpl; auto.
Qed.

(** With any globals and in any environment, [requests] is the one
    name that the body of [process_user_data] can find unbound: when
    nothing binds it, the run raises [NameError] for [requests]; when
    it is bound, no read of a name fails, [user_id] and [response]
    being local and bound when they are read.  (What the calls and the
    attributes do then is beyond the names.) *)
Theorem process_user_data_needs_requests :
  exists c, call env g process_user_data = Some c
            /\ only_needs env g "requests" c.
Proof.
  eexists. split; [apply run_process_user_data | apply needs_only_needs].
Qed.

(** With any globals and in any environment, [aiohttp] is the one name
    that the body of [fetch_data] can find unbound: when nothing binds
    it, the run raises [NameError] for [aiohttp]; when it is bound, no
    read of a name fails, [url], [session] and [response] being local
    and bound when they are read. *)
Theorem fetch_data_needs_aiohttp :
  exists c, call env g fetch_data = Some c /\ only_needs env g "aiohttp" c.
Proof.
  eexists. split; [apply run_fetch_data | apply needs_only_needs].
Qed.

(** With any globals and in any environment, [datetime], which the
    import of line 7 binds, is the one name that the body of
    [UserManager.__init__] can find unbound: when nothing binds it, the
    run raises [NameError] for [datetime]; when it is bound, no read of
    a name fails. *)
Theorem init_needs_datetime :
  exists c, call env g UserManager_init = Some c
            /\ only_needs env g "datetime" c.
Proof.
  eexists. split; [apply run_init | apply needs_only_needs].
Qed.

End AnyGlobals.

(** *** The run of the module in any environment *)

Lemma run_result_cons env g n s m :
  snd (run env g ((n, s) :: m))
  = match exec env (Frame g ModuleScope) s with
    | Next f' => snd (run env (globals f') m)
    | Returned => Failed n SyntaxError_return_outside_function g
    | Raised x => Failed n x g
    end.
Proof.
  simpl. destruct (exec env (Frame g ModuleScope) s); try reflexivity.
  now destruct (run env (globals f) m).
Qed.

Lemma failed_stopped_early n e g :
  In n failing_lines ->
  forallb (fun x => negb (bound_in x g)) never_bound = true ->
  stopped_early (Failed n e g).
Proof. intros Hn Hg. exists n, e, g. auto. Qed.

(** One statement of a run in an environment of which nothing is
    known: the run splits on what the statement asks of it. *)
Local Ltac ask env :=
  cbn -[run];
  repeat (first
    [ progress unfold import_from
    | progress unfold lookup
    | progress unfold lookup_global
    | match goal with
      | H : is_builtin env ?x = _ |- context [is_builtin env ?x] => rewrite H
      | |- context [exports env ?m] => destruct (exports env m)
      | |- context [bound_in ?x ?ex] => is_var ex; destruct (bound_in x ex)
      | |- context [is_builtin env ?x] => destruct (is_builtin env x) eqn:?
      end ];
    cbn -[run]).


(** With [name] bound beforehand, the run of the module comes to its
    end: every statement completes, lines 51 to 60 included, and the
    module binds the names of its statements in their order, from [os]
    to [config].  The name read on line 48 is all that the file lacks. *)
Theorem module_finishes_given_name env :
  Standard env ->
  run env (initial_globals ++ ["name"]) app
  = (map fst app,
     Finished (initial_globals ++ "name" :: block_bindings (statements app))).
Proof.
  intros []. unfold app.
  repeat (progress (cbn -[import_names import_from];
    rewrite ?import_names_provided, ?import_from_provided by assumption;
    rewrite ?lookup_global_builtin by assumption;
    rewrite ?lookup_global_bound by reflexivity)).
  reflexivity.
Qed.

Lemma module_finishes_given_name_python3 :
  Standard python3
  /\ snd (run python3 (initial_globals ++ ["name"]) app)
     = Finished (initial_globals ++ "name" :: block_bindings (statements app)).
Proof.
  assert (H : Standard python3) by (constructor; reflexivity).
  split; [exact H|].
  exact (f_equal snd (module_finishes_given_name python3 H)).
Defined.


End AstFacts.

Module RuntimeFacts.
Import Runtime.

Lemma sum_from_priced (items : list (gmap string value)) (prices : list Z) :
  Forall2 priced items prices ->
  forall acc : Z,
    sum_from (VInt acc) (generator (fun item => getattr item "price") items)
    = Ok (VInt (acc + total prices)).
Proof.
  induction 1 as [|item p items prices Hp _ IH]; intros acc; simpl.
  - f_equal. f_equal. lia.
  - unfold getattr at 1. rewrite Hp. simpl. rewrite IH.
    f_equal. f_equal. lia.
Qed.

(** An item without [price] ends the sum with [AttributeError]. *)
Lemma calculate_total_missing_price (item : gmap string value)
    (items : list (gmap string value)) :
  item !! "price" = None ->
  calculate_total (item :: items) = Err (AttributeError "price").
Proof.
  intros H. unfold calculate_total, sum, generator, getattr. simpl.
  now rewrite H.
Qed.




Section Instances.

Import UserManager.

Lemma dom_init now (self : gmap string value) name email :
  dom (__init__ now self name email) = attributes ∪ dom self.
Proof.
  unfold __init__, setattr, attributes. rewrite !dom_insert_L. set_solver.
Qed.

Lemma dom_apply (self : gmap string value) op :
  dom self = attributes -> dom (apply self op) = attributes.
Proof.
  intros H. destruct op as [now name email|]; simpl.
  - rewrite dom_init, H. set_solver.
  - exact H.
Qed.

Lemma dom_operations ops : forall self : gmap string value,
  dom self = attributes -> dom (foldl apply self ops) = attributes.
Proof.
  induction ops as [|op ops IH]; intros self H; simpl.
  - exact H.
  - apply IH. now apply dom_apply.
Qed.

Lemma lookup_new_name now name email :
  new now name email !! "name" = Some name.
Proof.
  unfold new, __init__, setattr.
  rewrite lookup_insert_ne by discriminate.
  rewrite lookup_insert_ne by discriminate.
  apply lookup_insert_eq.
Qed.

(** C7.  An instance just made by [UserManager(name, email)] has the
    attributes [name], [email] and [created_at] and no other, with the
    two arguments and the time of the call as their values; whatever
    operations of the class follow, the instance has these three
    attributes still; [get_name] leaves the instance as it is. *)
Theorem instance_has_three_attributes now name email ops :
  dom (new now name email) = ({[ "name"; "email"; "created_at" ]} : gset string)
  /\ size (new now name email) = 3%nat
  /\ new now name email !! "name" = Some name
  /\ new now name email !! "email" = Some email
  /\ new now name email !! "created_at" = Some (VDatetime now)
  /\ dom (foldl apply (new now name email) ops) = attributes
  /\ snd (get_name (foldl apply (new now name email) ops))
     = foldl apply (new now name email) ops.
Proof.
  assert (Hdom : dom (new now name email) = attributes).
  { unfold new. rewrite dom_init. set_solver. }
  split; [exact Hdom|]. split.
  { rewrite <- size_dom, Hdom. unfold attributes.
    rewrite !size_union, !size_singleton; [reflexivity|set_solver..]. }
  split; [apply lookup_new_name|]. split.
  { unfold new, __init__, setattr.
    rewrite lookup_insert_ne by discriminate. apply lookup_insert_eq. }
  split.
  { unfold new, __init__, setattr. apply lookup_insert_eq. }
  split; [now apply dom_operations | reflexivity].
Qed.

(** C9.  For all strings [n] and [e], [UserManager(n, e).get_name()]
    returns [n]. *)
Theorem get_name_after_construction now (n e : string) :
  fst (get_name (new now (VStr n) (VStr e))) = Ok (VStr n).
Proof.
  unfold get_name, getattr. simpl. now rewrite lookup_new_name.
Qed.

End Instances.

(** *** [calculate_total]: errors, order and what it reads *)

Lemma total_app (ps qs : list Z) : total (ps ++ qs) = (total ps + total qs)%Z.
Proof. unfold total. induction ps as [|p ps IH]; simpl; lia. Qed.

(** The sum over a priced prefix, then the rest. *)
Lemma sum_from_priced_prefix
    (pre rest : list (gmap string value)) (prices : list Z) :
  Forall2 priced pre prices ->
  forall acc : Z,
    sum_from (VInt acc)
             (generator (fun item => getattr item "price") (pre ++ rest))
    = sum_from (VInt (acc + total prices))
               (generator (fun item => getattr item "price") rest).
Proof.
  induction 1 as [|item p pre prices Hp _ IH]; intros acc; simpl.
  - do 2 f_equal. lia.
  - unfold getattr at 1. rewrite Hp. simpl. rewrite IH.
    do 2 f_equal. lia.
Qed.

(** The first item without [price] ends the call with
    [AttributeError], whatever the items after it are. *)
Theorem calculate_total_attribute_error
    (pre post : list (gmap string value)) (item : gmap string value)
    (prices : list Z) :
  Forall2 priced pre prices ->
  item !! "price" = None ->
  calculate_total (pre ++ item :: post) = Err (AttributeError "price").
Proof.
  intros Hpre Hitem. unfold calculate_total, sum.
  rewrite (sum_from_priced_prefix pre (item :: post) prices Hpre). simpl.
  unfold getattr at 1. now rewrite Hitem.
Qed.

Lemma calculate_total_attribute_error_example :
  Forall2 priced [ ({[ "price" := VInt 3 ]} : gmap string value) ] [3%Z]
  /\ ({[ "cost" := VInt 4 ]} : gmap string value) !! "price" = None
  /\ calculate_total
       [ {[ "price" := VInt 3 ]}; {[ "cost" := VInt 4 ]}
       ; {[ "price" := VInt 5 ]} ]
     = Err (AttributeError "price").
Proof.
  assert (H1 : Forall2 priced
                 [ ({[ "price" := VInt 3 ]} : gmap string value) ] [3%Z])
    by (repeat constructor).
  assert (H2 : ({[ "cost" := VInt 4 ]} : gmap string value) !! "price" = None)
    by reflexivity.
  split; [exact H1|]. split; [exact H2|].
  exact (calculate_total_attribute_error
           [ {[ "price" := VInt 3 ]} ] [ {[ "price" := VInt 5 ]} ]
           {[ "cost" := VInt 4 ]} [3%Z] H1 H2).
Defined.

(** The first item whose [price] is no integer (a string, [None], a
    timestamp) ends the call with [TypeError]: the total so far is an
    integer, and [+] has no case for the two. *)
Theorem calculate_total_type_error
    (pre post : list (gmap string value)) (item : gmap string value)
    (prices : list Z) (v : value) :
  Forall2 priced pre prices ->
  item !! "price" = Some v ->
  not_integer v = true ->
  calculate_total (pre ++ item :: post) = Err TypeError.
Proof.
  intros Hpre Hitem Hv. unfold calculate_total, sum.
  rewrite (sum_from_priced_prefix pre (item :: post) prices Hpre). simpl.
  unfold getattr at 1. rewrite Hitem.
  destruct v; simpl in *; try reflexivity. discriminate.
Qed.

Lemma calculate_total_type_error_example :
  Forall2 priced [ ({[ "price" := VInt 3 ]} : gmap string value) ] [3%Z]
  /\ ({[ "price" := VStr "4" ]} : gmap string value) !! "price"
     = Some (VStr "4")
  /\ not_integer (VStr "4") = true
  /\ calculate_total [ {[ "price" := VInt 3 ]}; {[ "price" := VStr "4" ]} ]
     = Err TypeError.
Proof.
  assert (H1 : Forall2 priced
                 [ ({[ "price" := VInt 3 ]} : gmap string value) ] [3%Z])
    by (repeat constructor).
  assert (H2 : ({[ "price" := VStr "4" ]} : gmap string value) !! "price"
               = Some (VStr "4")) by reflexivity.
  assert (H3 : not_integer (VStr "4") = true) by reflexivity.
  split; [exact H1|]. split; [exact H2|]. split; [exact H3|].
  exact (calculate_total_type_error
           [ {[ "price" := VInt 3 ]} ] [] {[ "price" := VStr "4" ]}
           [3%Z] (VStr "4") H1 H2 H3).
Defined.

(** The total of two lists put together is the sum of their totals. *)
Theorem calculate_total_app
    (xs ys : list (gmap string value)) (ps qs : list Z) :
  Forall2 priced xs ps ->
  Forall2 priced ys qs ->
  calculate_total (xs ++ ys) = Ok (VInt (total ps + total qs)).
Proof.
  intros Hx Hy. unfold calculate_total, sum.
  rewrite (sum_from_priced_prefix xs ys ps Hx).
  rewrite (sum_from_priced ys qs Hy). reflexivity.
Qed.

Lemma calculate_total_app_example :
  Forall2 priced [ ({[ "price" := VInt 3 ]} : gmap string value) ] [3%Z]
  /\ Forall2 priced [ ({[ "price" := VInt 4 ]} : gmap string value) ] [4%Z]
  /\ calculate_total [ {[ "price" := VInt 3 ]}; {[ "price" := VInt 4 ]} ]
     = Ok (VInt 7).
Proof.
  assert (H1 : Forall2 priced
                 [ ({[ "price" := VInt 3 ]} : gmap string value) ] [3%Z])
    by (repeat constructor).
  assert (H2 : Forall2 priced
                 [ ({[ "price" := VInt 4 ]} : gmap string value) ] [4%Z])
    by (repeat constructor).
  split; [exact H1|]. split; [exact H2|].
  exact (calculate_total_app _ _ _ _ H1 H2).
Defined.

Lemma priced_price_of (item : gmap string value) (p : Z) :
  priced item p -> price_of item = p.
Proof. unfold priced, price_of. now intros ->. Qed.

Lemma priced_by_price_of (items : list (gmap string value)) :
  Forall (fun item => exists p, priced item p) items ->
  Forall2 priced items (map price_of items).
Proof.
  induction 1 as [|item items [p Hp] _ IH]; simpl; constructor; auto.
  now rewrite (priced_price_of item p Hp).
Qed.

Lemma total_permutation (ps qs : list Z) :
  Permutation ps qs -> total ps = total qs.
Proof. unfold total. induction 1; simpl; lia. Qed.

(** The order of the items does not matter to the total. *)
Theorem calculate_total_permutation
    (items items' : list (gmap string value)) :
  Forall (fun item => exists p, priced item p) items ->
  Permutation items items' ->
  calculate_total items' = calculate_total items.
Proof.
  intros Hall Hperm.
  assert (Hall' : Forall (fun item => exists p, priced item p) items').
  { rewrite Forall_forall in *. intros x Hx. apply Hall.
    apply list_elem_of_In. apply list_elem_of_In in Hx.
    now apply (Permutation_in _ (Permutation_sym Hperm)). }
  unfold calculate_total, sum.
  rewrite (sum_from_priced _ _ (priced_by_price_of items Hall)).
  rewrite (sum_from_priced _ _ (priced_by_price_of items' Hall')).
  do 3 f_equal. apply total_permutation.
  apply Permutation_map. now apply Permutation_sym.
Qed.

Lemma calculate_total_permutation_example :
  calculate_total [ {[ "price" := VInt 4 ]}; {[ "price" := VInt 3 ]} ]
  = calculate_total [ {[ "price" := VInt 3 ]}; {[ "price" := VInt 4 ]} ].
Proof.
  apply calculate_total_permutation.
  - repeat constructor; eexists; reflexivity.
  - apply perm_swap.
Defined.

(** [calculate_total] reads the [price] of each item and nothing
    else: two lists whose items have the same prices, present or
    missing, give the same result, error or total. *)
Theorem calculate_total_reads_price_only
    (items items' : list (gmap string value)) :
  map (fun item => item !! "price") items
  = map (fun item => item !! "price") items' ->
  calculate_total items = calculate_total items'.
Proof.
  intros H. unfold calculate_total. f_equal. unfold generator.
  revert items' H.
  induction items as [|item items IH]; intros [|item' items'] H;
    simpl in *; try discriminate; [reflexivity|].
  injection H as Hitem Hrest. unfold getattr at 1 3.
  rewrite Hitem. f_equal. now apply IH.
Qed.

Lemma calculate_total_reads_price_only_example :
  calculate_total [ {[ "price" := VInt 3 ]}; ∅ ]
  = calculate_total
      [ <[ "name" := VStr "pen" ]> {[ "price" := VInt 3 ]}
      ; {[ "cost" := VInt 9 ]} ].
Proof.
  apply calculate_total_reads_price_only. reflexivity.
Defined.

(** *** [UserManager]: what the operations do to an instance *)

Section MoreInstances.

Import UserManager.

(** [__init__] sets [name] and [email] to its arguments and
    [created_at] to the time of the call, on any object, and leaves
    every other attribute of the object as it was. *)
Theorem init_keeps_other_attributes now (self : gmap string value)
    name email (k : string) :
  k ∉ attributes ->
  __init__ now self name email !! "name" = Some name
  /\ __init__ now self name email !! "email" = Some email
  /\ __init__ now self name email !! "created_at" = Some (VDatetime now)
  /\ __init__ now self name email !! k = self !! k.
Proof.
  unfold attributes, __init__, setattr. intros Hk.
  split; [|split; [|split]].
  - rewrite !lookup_insert_ne by discriminate. apply lookup_insert_eq.
  - rewrite lookup_insert_ne by discriminate. apply lookup_insert_eq.
  - apply lookup_insert_eq.
  - rewrite !lookup_insert_ne by set_solver. reflexivity.
Qed.

Lemma init_keeps_other_attributes_example :
  ("role" ∉ attributes)
  /\ (__init__ 7 {[ "role" := VStr "admin"; "name" := VStr "old" ]}
                (VStr "ann") (VStr "a@b.c")) !! "name" = Some (VStr "ann")
  /\ (__init__ 7 {[ "role" := VStr "admin"; "name" := VStr "old" ]}
                (VStr "ann") (VStr "a@b.c")) !! "role" = Some (VStr "admin").
Proof.
  assert (H : "role" ∉ attributes)
    by (unfold attributes; set_solver).
  split; [exact H|].
  pose proof (init_keeps_other_attributes 7
                {[ "role" := VStr "admin"; "name" := VStr "old" ]}
                (VStr "ann") (VStr "a@b.c") "role" H) as (Hn & _ & _ & Hk).
  split; [exact Hn|]. rewrite Hk. reflexivity.
Defined.

(** A second [__init__] overwrites the first: the object is as if only
    the second had run. *)
Theorem init_overwrites now1 now2 (self : gmap string value) n1 e1 n2 e2 :
  __init__ now2 (__init__ now1 self n1 e1) n2 e2 = __init__ now2 self n2 e2.
Proof.
  apply map_eq. intros k. unfold __init__, setattr.
  destruct (decide (k = "created_at")) as [->|H1];
    [now rewrite !lookup_insert_eq|].
  rewrite !(lookup_insert_ne _ "created_at") by congruence.
  destruct (decide (k = "email")) as [->|H2];
    [now rewrite !lookup_insert_eq|].
  rewrite !(lookup_insert_ne _ "email") by congruence.
  destruct (decide (k = "name")) as [->|H3];
    [now rewrite !lookup_insert_eq|].
  rewrite !(lookup_insert_ne _ "name") by congruence.
  rewrite !(lookup_insert_ne _ "created_at") by congruence.
  rewrite !(lookup_insert_ne _ "email") by congruence.
  rewrite !(lookup_insert_ne _ "name") by congruence.
  reflexivity.
Qed.

Lemma lookup_init_name now (self : gmap string value) name email :
  __init__ now self name email !! "name" = Some name.
Proof.
  unfold __init__, setattr.
  rewrite !lookup_insert_ne by discriminate. apply lookup_insert_eq.
Qed.

Lemma name_after_operations ops : forall (self : gmap string value) name,
  self !! "name" = Some name ->
  foldl apply self ops !! "name" = Some (last_name name ops).
Proof.
  induction ops as [|op ops IH]; intros self name H; simpl.
  - exact H.
  - destruct op as [now n e|]; simpl; apply IH.
    + apply lookup_init_name.
    + exact H.
Qed.

(** After any history of operations on a new instance, [get_name]
    succeeds and returns the name that the last [__init__] gave: the
    one of the construction if no other followed. *)
Theorem get_name_returns_last_name now name email ops :
  fst (get_name (foldl apply (new now name email) ops))
  = Ok (last_name name ops).
Proof.
  unfold get_name, getattr. simpl.
  now rewrite (name_after_operations ops _ name (lookup_new_name now name email)).
Qed.

(** [get_name] raises [AttributeError] exactly on an object without
    the attribute [name], an object on which [__init__] has not run;
    the object is the same after the call. *)
Lemma get_name_attribute_error (self : gmap string value) :
  (fst (get_name self) = Err (AttributeError "name") <-> self !! "name" = None)
  /\ snd (get_name self) = self.
Proof.
  unfold get_name, getattr. simpl. split; [|reflexivity].
  destruct (self !! "name"); split; intros H; congruence.
Qed.

End MoreInstances.

End RuntimeFacts.

Module PatternFacts.
Import Patterns.

(** *** The search *)

Lemma span_length p cs :
  length (fst (span p cs)) + length (snd (span p cs)) = length cs.
Proof.
  induction cs as [|c cs IH]; simpl; [reflexivity|].
  destruct (p c); simpl; [|reflexivity].
  destruct (span p cs); simpl in *. lia.
Qed.

Lemma strip_length p cs r : strip p cs = Some r -> length r <= length cs.
Proof.
  revert cs. induction p as [|a p IH]; intros [|b cs]; simpl;
    try discriminate; try (intros [= <-]; simpl; lia).
  destruct (Ascii.eqb a b); [|discriminate].
  intros H. apply IH in H. lia.
Qed.

Lemma keyword_at_shortens kw : shortens (keyword_at kw).
Proof.
  intros cs w r. unfold keyword_at.
  destruct (strip (list_ascii_of_string kw) cs) as [r0|] eqn:Hs;
    [|discriminate].
  apply strip_length in Hs.
  pose proof (span_length is_space r0) as H1.
  destruct (span is_space r0) as [[|s ws] r1]; [discriminate|].
  pose proof (span_length Text.is_word r1) as H2.
  destruct (span Text.is_word r1) as [[|c w0] r2]; [discriminate|].
  intros [= _ <-]. simpl in *. lia.
Qed.

Lemma quoted_at_shortens : shortens quoted_at.
Proof.
  intros [|c cs] w r; simpl; [discriminate|].
  destruct (is_opening c); [|discriminate].
  pose proof (span_length (fun x => negb (is_closing x)) cs) as H.
  destruct (span (fun x => negb (is_closing x)) cs) as [[|a run] [|b rest]];
    try discriminate.
  intros [= _ <-]. simpl in *. lia.
Qed.

Section Search.

Context (at_start : list ascii -> option (string * list ascii))
        (Hshort : shortens at_start).

Lemma at_start_nil : at_start [] = None.
Proof.
  destruct (at_start []) as [[w r]|] eqn:H; [|reflexivity].
  apply Hshort in H. simpl in H. lia.
Qed.

Lemma match_all_fuel : forall f1 f2 cs,
  length cs <= f1 -> length cs <= f2 ->
  match_all at_start f1 cs = match_all at_start f2 cs.
Proof.
  induction f1 as [|f1 IH]; intros f2 cs H1 H2.
  - destruct cs; [|simpl in H1; lia].
    destruct f2; simpl; [reflexivity|]. now rewrite at_start_nil.
  - destruct f2 as [|f2].
    + destruct cs; [|simpl in H2; lia]. simpl. now rewrite at_start_nil.
    + simpl. destruct (at_start cs) as [[w r]|] eqn:H.
      * apply Hshort in H. f_equal. apply IH; lia.
      * destruct cs as [|c cs]; [reflexivity|]. simpl in *. apply IH; lia.
Qed.

(** The search, step by step. *)
Lemma captures_match cs w r :
  at_start cs = Some (w, r) ->
  captures at_start cs = w :: captures at_start r.
Proof.
  intros H. pose proof (Hshort _ _ _ H) as Hlen.
  unfold captures. destruct cs as [|c cs]; [simpl in Hlen; lia|].
  simpl length. cbn [match_all]. rewrite H. f_equal.
  apply match_all_fuel; simpl in *; lia.
Qed.

Lemma captures_skip c cs :
  at_start (c :: cs) = None ->
  captures at_start (c :: cs) = captures at_start cs.
Proof.
  intros H. unfold captures. simpl length. cbn [match_all]. now rewrite H.
Qed.

End Search.

(** *** Runs *)

Lemma span_all p (w r : list ascii) :
  Forall (fun c => p c = true) w ->
  match r with [] => True | c :: _ => p c = false end ->
  span p (w ++ r) = (w, r).
Proof.
  intros Hw Hr. induction Hw as [|c w Hc _ IH]; simpl.
  - destruct r as [|c r]; [reflexivity|]. simpl. now rewrite Hr.
  - now rewrite Hc, IH.
Qed.

Lemma space_is_no_d c cs :
  is_space c = true -> def_at (c :: cs) = None.
Proof.
  intros H. unfold def_at, keyword_at. simpl.
  destruct c as [[] [] [] [] [] [] [] []]; try reflexivity;
    vm_compute in H; discriminate.
Qed.

Lemma word_is_no_space c : Text.is_word c = true -> is_space c = false.
Proof.
  destruct c as [[] [] [] [] [] [] [] []]; intros H; try reflexivity;
    vm_compute in H; discriminate.
Qed.

Lemma closing_of_opening c : is_opening c = true -> is_closing c = true.
Proof.
  unfold is_opening, is_closing. cbv zeta. intros H.
  apply orb_true_iff in H as [H|H]; rewrite H;
    [reflexivity | now rewrite orb_true_r].
Qed.

(** *** What the patterns find in any text *)





(** *** What the patterns find in the file *)

(** Over the text of the file, [/def\s+(\w+)/g] finds the six function
    definitions of the tree, the three methods with the three functions
    of the top level, and [/class\s+(\w+)/g] the two classes; no
    comment and no literal of the file gives either a match. *)
Theorem keyword_patterns_find_definitions :
  in_text def_at Text.source
  = omap (fun p => Ast.function_name (snd p))
         (Ast.all_functions (Ast.statements Ast.app))
  /\ in_text class_at Text.source
     = Ast.defined_classes (Ast.statements Ast.app).
Proof. split; vm_compute; reflexivity. Qed.

(** Over the text of the file as a whole, the third pattern finds none
    of the six literals [expected_literals]: the docstrings come first
    and put the search out of step, so that it matches the code and the
    line ends between the literals.  Line by line, it finds each of the
    six. *)
Theorem quote_pattern_misses_literals :
  Forall (fun s => s ∉ in_text quoted_at Text.source) Ast.expected_literals
  /\ Forall (fun s => s ∈ in_lines quoted_at Text.source)
            Ast.expected_literals.
Proof.
  split; apply (bool_decide_unpack _); vm_compute; exact I.
Qed.

End PatternFacts.
